(** * my_Predicta: the PLFS data explorer (src/app.py)

    A shallow embedding of the Flask application in [src/app.py]: the
    record table, the start-up loader, the query chaining done by every
    filtered route, the privacy suppression, and the CSV, spreadsheet and
    JSON formatting, followed by the properties the specification states
    about them.

    Conventions of the model.
    - A Python [str] is a Rocq [string]; a character stands for the code
      point of the same number (the code points below 256).
    - A Python [int] is a [Z].
    - The values that travel through [request.json], [request.form.get] and
      [jsonify] are [pyval]s; JSON null, booleans, integers, strings, arrays
      and objects correspond to them one to one.  Numbers with a fractional
      part are outside the model.
    - The table is the list of its rows in rowid order, which is the order
      [Query.all()] returns them in when no ORDER BY is given.
    - An exception that leaves a view function is a [Raise]. *)

From Stdlib Require Import ZArith Ascii String DecimalString DecimalZ.
From stdpp Require Import base option list gmap strings sorting.

Local Open Scope Z_scope.

(** ** Python values *)

#[warnings="-register-all"]
Inductive pyval :=
| PyNone
| PyBool (b : bool)
| PyInt (n : Z)
| PyStr (s : string)
| PyList (items : list pyval)
| PyDict (members : list (string * pyval)).

(** Truth value testing, as used by [if x:]. *)
Definition py_truthy (v : pyval) : bool :=
  match v with
  | PyNone => false
  | PyBool b => b
  | PyInt n => negb (n =? 0)
  | PyStr s => negb (String.eqb s "")
  | PyList items => match items with [] => false | _ => true end
  | PyDict members => match members with [] => false | _ => true end
  end.

(** [str(n)] for an integer: decimal digits, with a minus sign when negative. *)
Definition str_of_int (n : Z) : string := NilZero.string_of_int (Z.to_int n).

(** Exceptions that the modelled code can raise. *)
Inductive Exn :=
| AttributeError      (* .get on a value that is not a dict *)
| BadRequest          (* werkzeug: the body is not parseable JSON *)
| UnsupportedMediaType (* werkzeug: the request has no JSON content type *)
| ProgrammingError    (* sqlite3 cannot bind a parameter of that type *)
| OverflowError       (* an int that does not fit an SQLite INTEGER *)
| ValueError          (* csv.DictWriter: a key that is not a field name;
                         pandas: a sheet of more than 2^20 rows *)
| IllegalCharacterError (* openpyxl: a control character in a text cell *)
| NotFound
| MethodNotAllowed.

Inductive Result (A : Type) :=
| Ok (a : A)
| Raise (e : Exn).
Arguments Ok {A} a.
Arguments Raise {A} e.

#[global] Instance Result_ret : MRet Result := fun _ a => Ok a.
#[global] Instance Result_bind : MBind Result := fun _ _ f m =>
  match m with
  | Ok a => f a
  | Raise e => Raise e
  end.

#[global] Instance Result_fmap : FMap Result := fun _ _ f m =>
  match m with
  | Ok a => Ok (f a)
  | Raise e => Raise e
  end.

(** A Python dict with string keys, as the list of its items. *)
Fixpoint dict_get {A} (k : string) (d : list (string * A)) : option A :=
  match d with
  | [] => None
  | (k', v) :: d' => if String.eqb k' k then Some v else dict_get k d'
  end.

(** [v.get(k)]: [None] for a missing key, AttributeError when [v] is not a
    dict (lists, strings, numbers and [None] have no [get]). *)
Definition py_get (v : pyval) (k : string) : Result pyval :=
  match v with
  | PyDict members => Ok (default PyNone (dict_get k members))
  | _ => Raise AttributeError
  end.

(** ** [str.strip()] *)

(** [str.isspace] on one character, for the code points below 256. *)
Definition py_isspace (c : ascii) : bool :=
  let n := N_of_ascii c in
  ((9 <=? n) && (n <=? 13) || (28 <=? n) && (n <=? 32)
   || (n =? 133) || (n =? 160))%N.

Fixpoint lstrip (s : string) : string :=
  match s with
  | EmptyString => EmptyString
  | String c s' => if py_isspace c then lstrip s' else s
  end.

Fixpoint rstrip (s : string) : string :=
  match s with
  | EmptyString => EmptyString
  | String c s' =>
      match rstrip s' with
      | EmptyString => if py_isspace c then EmptyString else String c EmptyString
      | t => String c t
      end
  end.

Definition strip (s : string) : string := rstrip (lstrip s).

(** ** The table (class PLFSRecord, lines 14-22) *)

Module PLFSRecord.
Record t := mk {
  id : Z;
  state : string;
  gender : string;
  age : Z;
  year : string;
  employment_status : string;
  wage : Z
}.
End PLFSRecord.

Definition Store := list PLFSRecord.t.

(** The four text columns that the routes compare and list. *)
Inductive Column := col_state | col_gender | col_employment_status | col_year.

Definition column_value (c : Column) (r : PLFSRecord.t) : string :=
  match c with
  | col_state => PLFSRecord.state r
  | col_gender => PLFSRecord.gender r
  | col_employment_status => PLFSRecord.employment_status r
  | col_year => PLFSRecord.year r
  end.

(** ** Loading (load_csv_to_db, lines 28-51)

    One row of the data frame, seen through the conversions the loader
    applies: the text [str(row[...])] of the four text cells and the integer
    [int(row[...])] of the two numeric cells.  A row on which [int] raises
    aborts start-up, so that no table exists; the model covers the frames
    on which the conversions succeed. *)
Record RawRow := {
  raw_state : string;
  raw_gender : string;
  raw_age : Z;
  raw_year : string;
  raw_employment_status : string;
  raw_wage : Z
}.

Definition load_row (key : Z) (row : RawRow) : PLFSRecord.t :=
  PLFSRecord.mk key
    (strip (raw_state row))
    (strip (raw_gender row))
    (raw_age row)
    (strip (raw_year row))
    (strip (raw_employment_status row))
    (raw_wage row).

(** The records built from the frame (lines 32-42).  The table is dropped
    and recreated first (lines 49-50), so the rows get the keys 1, 2, ...
    in file order.  This is the table once the commit of line 44 has gone
    through; [startup] below has the commit and its failure. *)
Definition load_csv_to_db (df : list RawRow) : Store :=
  imap (fun i row => load_row (Z.of_nat i + 1) row) df.

Definition TEST_MODE : bool := true.

(** ** Queries

    [PLFSRecord.query] is the query with no criterion; [query.filter(c)]
    adds one; [query.all()] binds the parameters and returns the rows that
    satisfy every criterion. *)
Inductive Criterion := ColumnEq (c : Column) (v : pyval).

Definition Query := list Criterion.

Definition PLFSRecord_query : Query := [].

Definition query_filter (q : Query) (c : Criterion) : Query := q ++ [c].

(** What reaches SQLite for a compared value. *)
Inductive SqlValue :=
| SqlNull
| SqlInteger (n : Z)
| SqlText (s : string).

Definition bind_param (v : pyval) : Result SqlValue :=
  match v with
  | PyNone => Ok SqlNull
  | PyBool b => Ok (SqlInteger (if b then 1 else 0))
  | PyInt n =>
      if (- 2 ^ 63 <=? n) && (n <? 2 ^ 63) then Ok (SqlInteger n)
      else Raise OverflowError
  | PyStr s => Ok (SqlText s)
  | PyList _ | PyDict _ => Raise ProgrammingError
  end.

(** [column = value] on a column of TEXT affinity that holds the text
    [stored]: the affinity turns an integer operand into its decimal text
    before the comparison, text is compared byte for byte, and a comparison
    with NULL is never true. *)
Definition sqlite_text_eq (stored : string) (v : SqlValue) : bool :=
  match v with
  | SqlNull => false
  | SqlInteger n => String.eqb stored (str_of_int n)
  | SqlText s => String.eqb stored s
  end.

Definition bind_criterion (c : Criterion) : Result (Column * SqlValue) :=
  match c with
  | ColumnEq col v => p ← bind_param v; Ok (col, p)
  end.

Definition row_matches (params : list (Column * SqlValue)) (r : PLFSRecord.t) : bool :=
  forallb (fun cp => sqlite_text_eq (column_value cp.1 r) cp.2) params.

Definition query_all (q : Query) (store : Store) : Result (list PLFSRecord.t) :=
  params ← mapM bind_criterion q;
  Ok (List.filter (row_matches params) store).

(** ** Privacy suppression

    [if not TEST_MODE and len(results) < 5: results = []]
    (lines 90-91, 140-141 and 182-183). *)
Definition privacy_suppression (test_mode : bool) (results : list PLFSRecord.t)
  : list PLFSRecord.t :=
  if negb test_mode && (Z.of_nat (length results) <? 5) then [] else results.

(** ** Request data *)

Inductive Method := GET | POST.

(** [request.form]: the submitted pairs; [get] returns the first value
    stored for a key and [None] when there is none. *)
Definition Form := list (string * string).

Definition form_get (form : Form) (k : string) : pyval :=
  from_option PyStr PyNone (dict_get k form).

(** [request.json] on a request of a JSON content type: the parsed body; a
    body that is not JSON makes werkzeug raise BadRequest.  On a request of
    another content type [request.json] raises UnsupportedMediaType before
    anything is parsed: see [app], which knows the content type. *)
Definition request_json (body : option pyval) : Result pyval :=
  match body with
  | Some v => Ok v
  | None => Raise BadRequest
  end.

(** [x or y] *)
Definition py_or (x y : pyval) : pyval := if py_truthy x then x else y.

(** The step repeated for each of the four fields in every filtered route:
    [if v: query = query.filter(PLFSRecord.c == v)]. *)
Definition filter_if (query : Query) (c : Column) (v : pyval) : Query :=
  if py_truthy v then query_filter query (ColumnEq c v) else query.

(** ** Cells, rows and the csv module *)

(** The values the routes put in a row: text columns and integer columns. *)
Inductive Cell :=
| CellStr (s : string)
| CellInt (n : Z).

Definition cell_text (c : Cell) : string :=
  match c with
  | CellStr s => s
  | CellInt n => str_of_int n
  end.

Definition cell_value (c : Cell) : pyval :=
  match c with
  | CellStr s => PyStr s
  | CellInt n => PyInt n
  end.

(** The dict literal built from a record in download_csv, download_excel,
    api_data and api_filter. *)
Definition record_dict (r : PLFSRecord.t) : list (string * Cell) :=
  [ ("state", CellStr (PLFSRecord.state r));
    ("gender", CellStr (PLFSRecord.gender r));
    ("age", CellInt (PLFSRecord.age r));
    ("year", CellStr (PLFSRecord.year r));
    ("employment_status", CellStr (PLFSRecord.employment_status r));
    ("wage", CellInt (PLFSRecord.wage r)) ].

Definition quotechar : ascii := ascii_of_nat 34.
Definition delimiter : ascii := ascii_of_nat 44.
Definition CR : ascii := ascii_of_nat 13.
Definition LF : ascii := ascii_of_nat 10.
Definition lineterminator : string := String CR (String LF EmptyString).

(** QUOTE_MINIMAL: a field is quoted when it holds the delimiter, the quote
    character or a character of the line terminator.  No escape character
    is set, and every other character, NUL included, is written as it is. *)
Definition csv_special (c : ascii) : bool :=
  Ascii.eqb c delimiter || Ascii.eqb c quotechar || Ascii.eqb c CR || Ascii.eqb c LF.

Fixpoint string_exists (p : ascii -> bool) (s : string) : bool :=
  match s with
  | EmptyString => false
  | String c s' => p c || string_exists p s'
  end.

(** doublequote: a quote character inside a field is written twice. *)
Fixpoint csv_double (s : string) : string :=
  match s with
  | EmptyString => EmptyString
  | String c s' =>
      if Ascii.eqb c quotechar then String c (String c (csv_double s'))
      else String c (csv_double s')
  end.

Definition csv_field (s : string) : string :=
  if string_exists csv_special s
  then String quotechar (csv_double s +:+ String quotechar EmptyString)
  else s.

Fixpoint csv_join (fields : list string) : string :=
  match fields with
  | [] => EmptyString
  | [f] => csv_field f
  | f :: rest => csv_field f +:+ String delimiter (csv_join rest)
  end.

(** [writer.writerow(fields)] on the buffer [si]; a row made of one empty
    field is written as a pair of quotes. *)
Definition csv_writerow (si : string) (fields : list string) : string :=
  match fields with
  | [EmptyString] => si +:+ String quotechar (String quotechar lineterminator)
  | _ => si +:+ csv_join fields +:+ lineterminator
  end.

Record DictWriter := { fieldnames : list string }.

(** [DictWriter.writerow]: a key outside [fieldnames] raises ValueError; a
    missing key is written as the empty string. *)
Definition DictWriter_writerow (w : DictWriter) (si : string)
    (rowdict : list (string * Cell)) : Result string :=
  if forallb (fun kv => existsb (String.eqb kv.1) (fieldnames w)) rowdict
  then Ok (csv_writerow si
             (map (fun k => from_option cell_text EmptyString (dict_get k rowdict))
                  (fieldnames w)))
  else Raise ValueError.

Definition DictWriter_writeheader (w : DictWriter) (si : string) : Result string :=
  DictWriter_writerow w si (map (fun k => (k, CellStr k)) (fieldnames w)).

(** [for r in results: writer.writerow({...})] *)
Fixpoint write_rows (w : DictWriter) (si : string) (results : list PLFSRecord.t)
  : Result string :=
  match results with
  | [] => Ok si
  | r :: rest =>
      si' ← DictWriter_writerow w si (record_dict r);
      write_rows w si' rest
  end.

(** ** The spreadsheet

    [pd.DataFrame(list of dicts)] takes its columns from the keys of the
    dicts (every dict here comes from the same literal).  [to_excel] with
    [index=False] hands openpyxl the column names and then one row per
    dict, and nothing at all for a frame without columns; pandas refuses a
    frame of more than 2^20 rows.  A cell is modelled as openpyxl writes
    it into the file; how a reader decodes the file again is outside the
    model. *)
Definition DataFrame := list (list (string * Cell)).

Inductive XlsxCell :=
| XNumber (n : Z)         (* a number, written with 16 significant digits *)
| XText (s : string)
| XFormula (s : string)   (* a text of several characters that starts with = *)
| XError (s : string)     (* a text that is one of Excel's error codes *)
| XEmpty.                 (* the empty text is written as a cell without value *)

(** [n / d] rounded to the nearest integer, a tie going to the even one;
    for [0 <= n] and [0 < d]. *)
Definition round_half_even (n d : Z) : Z :=
  let q := n / d in
  let r := n mod d in
  if 2 * r <? d then q
  else if d <? 2 * r then q + 1
  else if Z.even q then q else q + 1.

(** [float(n)]: the nearest number with a significand of 53 bits. *)
Definition float_of_int (n : Z) : Z :=
  let a := Z.abs n in
  if a <? 2 ^ 53 then n
  else
    let e := Z.log2 a - 52 in
    Z.sgn n * (round_half_even a (2 ^ e) * 2 ^ e).

(** The number of decimal digits [a] has beyond 16. *)
Fixpoint excess_digits (fuel : nat) (a : Z) : Z :=
  match fuel with
  | O => 0
  | S fuel' => if a <? 10 ^ 16 then 0 else 1 + excess_digits fuel' (a / 10)
  end.

(** The value of the text ["%.16g" % n], which is how openpyxl writes a
    number: [float(n)] rounded to 16 significant digits. *)
Definition xlsx_number (n : Z) : Z :=
  let m := float_of_int n in
  let a := Z.abs m in
  let k := excess_digits 400 a in
  if k =? 0 then m else Z.sgn m * (round_half_even a (10 ^ k) * 10 ^ k).

(** ILLEGAL_CHARACTERS_RE: the code points 0-8, 11-12 and 14-31. *)
Definition illegal_character (c : ascii) : bool :=
  let n := N_of_ascii c in
  ((n <=? 8) || (11 <=? n) && (n <=? 12) || (14 <=? n) && (n <=? 31))%N.

Fixpoint string_take (n : nat) (s : string) : string :=
  match n, s with
  | S n', String c s' => String c (string_take n' s')
  | _, _ => EmptyString
  end.

(** [Cell.check_string]: the text is cut to 32767 characters and refused
    when what is left holds an illegal character. *)
Definition check_string (s : string) : Result string :=
  let v := string_take (Z.to_nat 32767) s in
  if string_exists illegal_character v then Raise IllegalCharacterError else Ok v.

Definition ERROR_CODES : list string :=
  ["#NULL!"; "#DIV/0!"; "#VALUE!"; "#REF!"; "#NAME?"; "#NUM!"; "#N/A"].

(** The cell a checked text becomes: a formula when it has more than one
    character and starts with =, an error when it is an error code, and an
    empty cell when it is empty. *)
Definition text_cell (v : string) : XlsxCell :=
  match v with
  | EmptyString => XEmpty
  | String c (String _ _) =>
      if Ascii.eqb c "=" then XFormula v
      else if existsb (String.eqb v) ERROR_CODES then XError v
      else XText v
  | _ => XText v
  end.

(** The cell openpyxl makes of a text. *)
Definition xlsx_text (s : string) : Result XlsxCell :=
  v ← check_string s;
  Ok (text_cell v).

Definition xlsx_cell (c : Cell) : Result XlsxCell :=
  match c with
  | CellStr s => xlsx_text s
  | CellInt n => Ok (XNumber (xlsx_number n))
  end.

Record Workbook := {
  sheet_name : string;
  sheet_rows : list (list XlsxCell)
}.

Definition to_excel (df : DataFrame) (name : string) : Result Workbook :=
  if 2 ^ 20 <? Z.of_nat (length df) then Raise ValueError
  else
    rows ← match df with
           | [] => Ok []
           | d :: _ =>
               header ← mapM (fun kv => xlsx_text kv.1) d;
               data ← mapM (fun d' => mapM (fun kv => xlsx_cell kv.2) d') df;
               Ok (header :: data)
           end;
    Ok {| sheet_name := name; sheet_rows := rows |}.

(** ** Sorting strings

    [sorted] on a collection of [str]: ascending, code point by code point. *)
Definition py_sorted (l : list string) : list string := merge_sort String.le l.

(** ** Responses *)

(** The keyword arguments explore passes to its template. *)
Record ExploreContext := {
  ctx_filters : list (string * pyval);
  ctx_results : list (list (string * pyval));
  ctx_states : list string;
  ctx_genders : list string;
  ctx_emp_status : list string;
  ctx_years : list string
}.

Inductive Response :=
| RenderTemplate (template : string) (context : option ExploreContext)
| CsvAttachment (body : string)
| ExcelAttachment (workbook : Workbook)
| Jsonify (v : pyval).

(** The status a client sees: werkzeug's HTTP exceptions carry their own
    code, any other exception that leaves a view is a server error. *)
Definition status_code (r : Result Response) : Z :=
  match r with
  | Ok _ => 200
  | Raise BadRequest => 400
  | Raise NotFound => 404
  | Raise UnsupportedMediaType => 415
  | Raise MethodNotAllowed => 405
  | Raise _ => 500
  end.

(** ** Routes *)

Definition index : Result Response := Ok (RenderTemplate "index.html" None).

Definition about : Result Response := Ok (RenderTemplate "about.html" None).

(** Lines 96-99: one dropdown list.  [distinct()] removes repeated values,
    [if row[0]] drops the empty ones, the set comprehension collects the
    stripped values and [sorted] orders them. *)
Definition dropdown (c : Column) (store : Store) : list string :=
  let rows := remove_dups (map (column_value c) store) in
  let values : gset string :=
    list_to_set (map strip (List.filter (fun v => py_truthy (PyStr v)) rows)) in
  py_sorted (elements values).

(** [r.__dict__] once [_sa_instance_state] is popped (lines 107-109). *)
Definition instance_dict (r : PLFSRecord.t) : list (string * pyval) :=
  [ ("id", PyInt (PLFSRecord.id r));
    ("state", PyStr (PLFSRecord.state r));
    ("gender", PyStr (PLFSRecord.gender r));
    ("age", PyInt (PLFSRecord.age r));
    ("year", PyStr (PLFSRecord.year r));
    ("employment_status", PyStr (PLFSRecord.employment_status r));
    ("wage", PyInt (PLFSRecord.wage r)) ].

(** Lines 69-87 of explore: the filters dict and the rows it selects. *)
Definition explore_results (store : Store) (form : Form)
  : Result (list (string * pyval) * list PLFSRecord.t) :=
  let query := PLFSRecord_query in
  let f_state := form_get form "state" in
  let f_gender := form_get form "gender" in
  let f_employment_status := form_get form "employment_status" in
  let f_year := form_get form "year" in
  let filters :=
    [ ("state", f_state);
      ("gender", f_gender);
      ("employment_status", f_employment_status);
      ("year", f_year);
      ("chart_type", py_or (form_get form "chart_type") (PyStr "bar")) ] in
  let query := filter_if query col_state f_state in
  let query := filter_if query col_gender f_gender in
  let query := filter_if query col_employment_status f_employment_status in
  let query := filter_if query col_year f_year in
  results ← query_all query store;
  Ok (filters, results).

Definition explore (test_mode : bool) (store : Store) (method : Method) (form : Form)
  : Result Response :=
  '(filters, results) ←
    match method with
    | POST =>
        '(filters, results) ← explore_results store form;
        Ok (filters, privacy_suppression test_mode results)
    | GET => Ok ([("chart_type", PyStr "bar")], [])
    end;
  let states := dropdown col_state store in
  let genders := dropdown col_gender store in
  let emp_status := dropdown col_employment_status store in
  let years := dropdown col_year store in
  let results_dict := map instance_dict results in
  Ok (RenderTemplate "explore.html"
        (Some {| ctx_filters := filters;
                 ctx_results := results_dict;
                 ctx_states := states;
                 ctx_genders := genders;
                 ctx_emp_status := emp_status;
                 ctx_years := years |})).

(** Lines 122-139 of download_csv, and the same lines 164-181 of
    download_excel: the rows the form selects. *)
Definition download_results (store : Store) (form : Form)
  : Result (list PLFSRecord.t) :=
  let query := PLFSRecord_query in
  let f_state := form_get form "state" in
  let f_gender := form_get form "gender" in
  let f_employment_status := form_get form "employment_status" in
  let f_year := form_get form "year" in
  let query := filter_if query col_state f_state in
  let query := filter_if query col_gender f_gender in
  let query := filter_if query col_employment_status f_employment_status in
  let query := filter_if query col_year f_year in
  query_all query store.

(** Lines 143-157: the text written for the rows that are left. *)
Definition csv_output (results : list PLFSRecord.t) : Result string :=
  let si := EmptyString in
  match results with
  | [] => Ok si
  | _ =>
      let writer :=
        {| fieldnames :=
             ["state"; "gender"; "age"; "year"; "employment_status"; "wage"] |} in
      si ← DictWriter_writeheader writer si;
      write_rows writer si results
  end.

Definition download_csv (test_mode : bool) (store : Store) (form : Form)
  : Result Response :=
  results ← download_results store form;
  let results := privacy_suppression test_mode results in
  output ← csv_output results;
  Ok (CsvAttachment output).

(** Lines 185-201: the workbook written for the rows that are left. *)
Definition excel_output (results : list PLFSRecord.t) : Result Response :=
  let df := map record_dict results in
  workbook ← to_excel df "PLFS_Data";
  Ok (ExcelAttachment workbook).

Definition download_excel (test_mode : bool) (store : Store) (form : Form)
  : Result Response :=
  results ← download_results store form;
  let results := privacy_suppression test_mode results in
  excel_output results.

(** What jsonify receives in api_data and api_filter. *)
Definition record_json (r : PLFSRecord.t) : pyval :=
  PyDict (map (fun kv => (kv.1, cell_value kv.2)) (record_dict r)).

Definition records_json (results : list PLFSRecord.t) : pyval :=
  PyList (map record_json results).

Definition api_data (store : Store) : Result Response :=
  results ← query_all PLFSRecord_query store;
  Ok (Jsonify (records_json results)).

(** Lines 218-230 of api_filter.  Where [filters.get(k)] is true the key is
    present, and [filters[k]] is the value [get] returned. *)
Definition api_filter_results (store : Store) (body : option pyval)
  : Result (list PLFSRecord.t) :=
  let query := PLFSRecord_query in
  filters ← request_json body;
  v ← py_get filters "state";
  let query := filter_if query col_state v in
  v ← py_get filters "gender";
  let query := filter_if query col_gender v in
  v ← py_get filters "employment_status";
  let query := filter_if query col_employment_status v in
  v ← py_get filters "year";
  let query := filter_if query col_year v in
  query_all query store.

Definition api_filter (store : Store) (body : option pyval) : Result Response :=
  results ← api_filter_results store body;
  Ok (Jsonify (records_json results)).

(** A request: its method and path, the submitted form, whether its
    content type is a JSON one, and its body as JSON when it parses. *)
Record Request := {
  req_method : Method;
  req_path : string;
  req_form : Form;
  req_is_json : bool;
  req_json : option pyval
}.

(** The rule [/static/<path:filename>] that [Flask(__name__)] registers
    for GET: the file name is not empty and does not start with a slash. *)
Definition static_rule (path : string) : bool :=
  String.prefix "/static/" path &&
  match String.get 8 path with
  | Some c => negb (Ascii.eqb c "/")
  | None => false
  end.

(** No static folder is under src/: the model has no file in it, so the
    static view finds none. *)
Definition send_static_file : Result Response := Raise NotFound.

Definition only (allowed : Method) (req : Request) (view : Result Response)
  : Result Response :=
  match allowed, req_method req with
  | GET, GET | POST, POST => view
  | _, _ => Raise MethodNotAllowed
  end.

(** The routing table (the [@app.route] lines and the static rule).  The
    view of /api/filter starts with [request.json], which refuses a request
    that has no JSON content type.  Paths that werkzeug rewrites before
    matching (doubled slashes) are outside the model. *)
Definition app (test_mode : bool) (store : Store) (req : Request) : Result Response :=
  let path := req_path req in
  if String.eqb path "/" then only GET req index
  else if String.eqb path "/about" then only GET req about
  else if String.eqb path "/explore"
       then explore test_mode store (req_method req) (req_form req)
  else if String.eqb path "/download_csv"
       then only POST req (download_csv test_mode store (req_form req))
  else if String.eqb path "/download_excel"
       then only POST req (download_excel test_mode store (req_form req))
  else if String.eqb path "/api/data" then only GET req (api_data store)
  else if String.eqb path "/api/filter"
       then only POST req
              (if req_is_json req then api_filter store (req_json req)
               else Raise UnsupportedMediaType)
  else if static_rule path then only GET req send_static_file
  else Raise NotFound.

(** ** The scenario of the specification *)

Definition example_frame : list RawRow :=
  [ {| raw_state := "CA"; raw_gender := "F"; raw_age := 30; raw_year := "2021";
       raw_employment_status := "Employed"; raw_wage := 50000 |};
    {| raw_state := "TX"; raw_gender := "M"; raw_age := 25; raw_year := "2021";
       raw_employment_status := "Unemployed"; raw_wage := 0 |};
    {| raw_state := "CA"; raw_gender := "M"; raw_age := 40; raw_year := "2020";
       raw_employment_status := "Employed"; raw_wage := 60000 |} ].

Definition example_store : Store := load_csv_to_db example_frame.

(** ** The filter of the specification

    A filter gives each of the four fields an optional value.  A field
    constrains a record when it is set to a value that is not empty. *)
Record Filter := {
  f_state : option string;
  f_gender : option string;
  f_employment_status : option string;
  f_year : option string
}.

Definition no_filter : Filter := Build_Filter None None None None.

Definition filter_field (f : Filter) (c : Column) : option string :=
  match c with
  | col_state => f_state f
  | col_gender => f_gender f
  | col_employment_status => f_employment_status f
  | col_year => f_year f
  end.

(** The name a column has in a form and in a JSON body. *)
Definition column_key (c : Column) : string :=
  match c with
  | col_state => "state"
  | col_gender => "gender"
  | col_employment_status => "employment_status"
  | col_year => "year"
  end.

Definition columns : list Column :=
  [col_state; col_gender; col_employment_status; col_year].

(** The form and the JSON object that carry a filter: one entry for each
    field that is set. *)
Definition filter_entries (f : Filter) : list (string * string) :=
  omap (fun c => pair (column_key c) <$> filter_field f c) columns.

Definition filter_form (f : Filter) : Form := filter_entries f.

Definition filter_json (f : Filter) : pyval :=
  PyDict (map (fun kv => (kv.1, PyStr kv.2)) (filter_entries f)).

(** A record satisfies a filter when it agrees with every field that is set
    to a non-empty value. *)
Definition satisfies (f : Filter) (r : PLFSRecord.t) : Prop :=
  forall c V, filter_field f c = Some V -> V <> EmptyString -> column_value c r = V.

Definition field_ok (f : Filter) (r : PLFSRecord.t) (c : Column) : bool :=
  match filter_field f c with
  | Some V => String.eqb V EmptyString || String.eqb (column_value c r) V
  | None => true
  end.

Definition satisfiesb (f : Filter) (r : PLFSRecord.t) : bool :=
  forallb (field_ok f r) columns.

(** The records of the store that satisfy the filter, in store order. *)
Definition select (f : Filter) (store : Store) : list PLFSRecord.t :=
  List.filter (satisfiesb f) store.

(** ** Reading CSV text back

    The reader follows the state machine of Python's [csv.reader] with the
    default dialect, fed with the lines of the text; [DictReader] names the
    fields of each record after the first one.  It is what the round trip
    of the specification parses the export with. *)
Module CsvReader.

Inductive State :=
| START_RECORD
| START_FIELD
| IN_FIELD
| IN_QUOTED_FIELD
| QUOTE_IN_QUOTED_FIELD
| EAT_CRNL.

Record t := mk {
  state : State;
  field : string;             (* the field being read *)
  fields : list string;       (* the fields of the record being read *)
  rows : list (list string)   (* the records read so far *)
}.

Definition set_state (rd : t) (st : State) : t :=
  mk st (field rd) (fields rd) (rows rd).

Definition add_char (rd : t) (c : ascii) (st : State) : t :=
  mk st (field rd +:+ String c EmptyString) (fields rd) (rows rd).

Definition save_field (rd : t) (st : State) : t :=
  mk st EmptyString (fields rd ++ [field rd]) (rows rd).

(** The record is complete: hand it out and reset for the next one. *)
Definition emit (rd : t) : t :=
  mk START_RECORD EmptyString [] (rows rd ++ [fields rd]).

Definition is_newline (c : ascii) : bool := Ascii.eqb c CR || Ascii.eqb c LF.

Definition start_field (rd : t) (c : ascii) : t :=
  if is_newline c then save_field rd EAT_CRNL
  else if Ascii.eqb c quotechar then set_state rd IN_QUOTED_FIELD
  else if Ascii.eqb c delimiter then save_field rd START_FIELD
  else add_char rd c IN_FIELD.

(** The two states in which a field may begin. *)
Definition at_start (st : State) : Prop := st = START_RECORD \/ st = START_FIELD.

(** One character; [None] is csv.Error. *)
Definition process_char (rd : t) (c : ascii) : option t :=
  match state rd with
  | START_RECORD =>
      if is_newline c then Some (set_state rd EAT_CRNL)
      else Some (start_field rd c)
  | START_FIELD => Some (start_field rd c)
  | IN_FIELD =>
      if is_newline c then Some (save_field rd EAT_CRNL)
      else if Ascii.eqb c delimiter then Some (save_field rd START_FIELD)
      else Some (add_char rd c IN_FIELD)
  | IN_QUOTED_FIELD =>
      if Ascii.eqb c quotechar then Some (set_state rd QUOTE_IN_QUOTED_FIELD)
      else Some (add_char rd c IN_QUOTED_FIELD)
  | QUOTE_IN_QUOTED_FIELD =>
      if Ascii.eqb c quotechar then Some (add_char rd c IN_QUOTED_FIELD)
      else if Ascii.eqb c delimiter then Some (save_field rd START_FIELD)
      else if is_newline c then Some (save_field rd EAT_CRNL)
      else Some (add_char rd c IN_FIELD)
  | EAT_CRNL => if is_newline c then Some rd else None
  end.

(** The end of a line of the text. *)
Definition process_eol (rd : t) : t :=
  match state rd with
  | START_RECORD | EAT_CRNL => emit rd
  | START_FIELD | IN_FIELD | QUOTE_IN_QUOTED_FIELD => emit (save_field rd START_RECORD)
  | IN_QUOTED_FIELD => rd
  end.

(** The end of the text: a last line without a line feed still ends, and
    a record left open inside quotes is handed out as it is. *)
Definition finish (rd : t) : t :=
  match state rd with
  | START_RECORD => rd
  | IN_QUOTED_FIELD => emit (save_field rd START_RECORD)
  | _ => process_eol rd
  end.

(** Lines end at a line feed. *)
Fixpoint run (rd : t) (text : string) : option (list (list string)) :=
  match text with
  | EmptyString => Some (rows (finish rd))
  | String c rest =>
      match process_char rd c with
      | None => None
      | Some rd' => run (if Ascii.eqb c LF then process_eol rd' else rd') rest
      end
  end.

Definition reader (text : string) : option (list (list string)) :=
  run (mk START_RECORD EmptyString [] []) text.

(** [csv.DictReader]: the first record gives the field names, empty
    records are skipped, and each other record is zipped with the names
    (of a name that occurs twice the last value is kept; fields beyond
    the names are not reachable under a name). *)
Definition DictReader (records : list (list string)) : list (list (string * string)) :=
  match records with
  | [] => []
  | names :: data =>
      map (fun row => reverse (zip names row))
          (List.filter (fun row => match row with [] => false | _ => true end) data)
  end.

End CsvReader.

(** [int(s)] on the decimal text of an integer. *)
Definition int_of_str (s : string) : option Z :=
  Z.of_int <$> NilZero.int_of_string s.

(** A row read back as a record object: the four text fields as they are,
    age and wage as integers. *)
Definition record_of_row (d : list (string * string)) : option pyval :=
  state ← dict_get "state" d;
  gender ← dict_get "gender" d;
  age ← dict_get "age" d ≫= int_of_str;
  year ← dict_get "year" d;
  employment_status ← dict_get "employment_status" d;
  wage ← dict_get "wage" d ≫= int_of_str;
  Some (PyDict [ ("state", PyStr state);
                 ("gender", PyStr gender);
                 ("age", PyInt age);
                 ("year", PyStr year);
                 ("employment_status", PyStr employment_status);
                 ("wage", PyInt wage) ]).

Definition parse_csv (text : string) : option (list pyval) :=
  records ← CsvReader.reader text;
  mapM record_of_row (CsvReader.DictReader records).

(** The line the csv writer produces for a list of fields, and the text of
    an export: the header line and one line per record. *)
Definition csv_line (fields : list string) : string := csv_writerow EmptyString fields.

Definition csv_header : list string :=
  ["state"; "gender"; "age"; "year"; "employment_status"; "wage"].

Definition record_fields (r : PLFSRecord.t) : list string :=
  [ PLFSRecord.state r; PLFSRecord.gender r; str_of_int (PLFSRecord.age r);
    PLFSRecord.year r; PLFSRecord.employment_status r; str_of_int (PLFSRecord.wage r) ].

Fixpoint csv_lines (rows : list (list string)) : string :=
  match rows with
  | [] => EmptyString
  | row :: rest => csv_line row +:+ csv_lines rest
  end.

(** The dropdown list of the specification: sorted, without repetition,
    holding exactly the non-empty values of the column. *)
Definition is_dropdown_of (c : Column) (store : Store) (l : list string) : Prop :=
  Sorted String.le l /\
  NoDup l /\
  forall v, v ∈ l <-> v <> EmptyString /\ exists r, r ∈ store /\ column_value c r = v.

(** The items of a JSON array response. *)
Definition json_items (r : Result Response) : option (list pyval) :=
  match r with
  | Ok (Jsonify (PyList items)) => Some items
  | _ => None
  end.

Definition csv_body (r : Result Response) : option string :=
  match r with
  | Ok (CsvAttachment body) => Some body
  | _ => None
  end.

(** The filter a form denotes: the first value submitted for each field. *)
Definition form_filter (form : Form) : Filter :=
  {| f_state := dict_get "state" form;
     f_gender := dict_get "gender" form;
     f_employment_status := dict_get "employment_status" form;
     f_year := dict_get "year" form |}.

(** The value a JSON object gives a field, as [filters.get] returns it. *)
Definition json_field (members : list (string * pyval)) (c : Column) : pyval :=
  default PyNone (dict_get (column_key c) members).

(** The criteria one field contributes to the query. *)
Definition criteria (c : Column) (v : pyval) : Query :=
  if py_truthy v then [ColumnEq c v] else [].

Definition text_params (c : Column) (o : option string) : list (Column * SqlValue) :=
  match o with
  | Some s => if String.eqb s EmptyString then [] else [(c, SqlText s)]
  | None => []
  end.

Definition explore_context (r : Result Response) : option ExploreContext :=
  match r with
  | Ok (RenderTemplate _ (Some ctx)) => Some ctx
  | _ => None
  end.

Definition excel_rows (r : Result Response) : option (list (list XlsxCell)) :=
  match r with
  | Ok (ExcelAttachment wb) => Some (sheet_rows wb)
  | _ => None
  end.

(** A POST that carries a form, or a JSON body when one is given. *)
Definition post (path : string) (form : Form) (body : option pyval) : Request :=
  {| req_method := POST; req_path := path; req_form := form;
     req_is_json := match body with Some _ => true | None => false end;
     req_json := body |}.

Definition get (path : string) : Request :=
  {| req_method := GET; req_path := path; req_form := [];
     req_is_json := false; req_json := None |}.


(** ** Notions used to state further properties *)

Fixpoint string_forall (p : ascii -> bool) (s : string) : bool :=
  match s with
  | EmptyString => true
  | String c s' => p c && string_forall p s'
  end.

(** A text that neither begins nor ends with a whitespace character. *)
Definition no_outer_space (s : string) : Prop :=
  (forall c t, s = String c t -> py_isspace c = false) /\
  (forall t c, s = t +:+ String c EmptyString -> py_isspace c = false).




(** The texts of a record, as download_excel hands them to the writer. *)
Definition record_texts (r : PLFSRecord.t) : list string :=
  map (fun c => column_value c r) columns.

(** A text openpyxl accepts: no illegal character among its first 32767. *)
Definition accepted (s : string) : bool :=
  negb (string_exists illegal_character (string_take (Z.to_nat 32767) s)).

Definition writable (r : PLFSRecord.t) : bool := forallb accepted (record_texts r).

(** The row written for a record the writer accepts. *)
Definition xlsx_row (r : PLFSRecord.t) : list XlsxCell :=
  [ text_cell (string_take (Z.to_nat 32767) (PLFSRecord.state r));
    text_cell (string_take (Z.to_nat 32767) (PLFSRecord.gender r));
    XNumber (xlsx_number (PLFSRecord.age r));
    text_cell (string_take (Z.to_nat 32767) (PLFSRecord.year r));
    text_cell (string_take (Z.to_nat 32767) (PLFSRecord.employment_status r));
    XNumber (xlsx_number (PLFSRecord.wage r)) ].

(** A field value that api_filter can turn into a criterion, or skips. *)
Definition usable (v : pyval) : Prop :=
  py_truthy v = true -> exists p, bind_param v = Ok p.

(** The writer download_csv creates. *)
Definition plfs_writer : DictWriter :=
  {| fieldnames := ["state"; "gender"; "age"; "year"; "employment_status"; "wage"] |}.

(** * Properties *)

(** ** Queries *)

Lemma filter_if_criteria q c v : filter_if q c v = q ++ criteria c v.
Proof.
  unfold filter_if, criteria, query_filter.
  destruct (py_truthy v); [reflexivity | symmetry; apply app_nil_r].
Qed.

Lemma bind_criteria_app q1 q2 :
  mapM bind_criterion (q1 ++ q2) =
  (l1 ← mapM bind_criterion q1; l2 ← mapM bind_criterion q2; Ok (l1 ++ l2)).
Proof.
  induction q1 as [|c q1 IH]; simpl.
  - destruct (mapM bind_criterion q2); reflexivity.
  - destruct (bind_criterion c) as [p|e]; simpl; [|reflexivity].
    rewrite IH. destruct (mapM bind_criterion q1) as [l1|e]; simpl; [|reflexivity].
    destruct (mapM bind_criterion q2); reflexivity.
Qed.

Lemma row_matches_app p1 p2 r :
  row_matches (p1 ++ p2) r = row_matches p1 r && row_matches p2 r.
Proof. apply forallb_app. Qed.

Lemma form_get_filter form c :
  form_get form (column_key c) =
  from_option PyStr PyNone (filter_field (form_filter form) c).
Proof. destruct c; reflexivity. Qed.

Lemma bind_criteria_text c o :
  mapM bind_criterion (criteria c (from_option PyStr PyNone o)) = Ok (text_params c o).
Proof.
  destruct o as [s|]; simpl; [|reflexivity].
  unfold criteria. simpl. destruct (String.eqb s ""); reflexivity.
Qed.

Lemma row_matches_text f r c :
  row_matches (text_params c (filter_field f c)) r = field_ok f r c.
Proof.
  unfold field_ok, text_params. destruct (filter_field f c) as [s|]; [|reflexivity].
  destruct (String.eqb s ""); simpl; [reflexivity | apply andb_true_r].
Qed.

(** The query the four [filter_if] steps build from text values selects
    exactly the records that satisfy the filter. *)
Lemma text_query_selects f store :
  query_all
    (filter_if
       (filter_if
          (filter_if
             (filter_if PLFSRecord_query
                col_state (from_option PyStr PyNone (f_state f)))
             col_gender (from_option PyStr PyNone (f_gender f)))
          col_employment_status (from_option PyStr PyNone (f_employment_status f)))
       col_year (from_option PyStr PyNone (f_year f)))
    store
  = Ok (select f store).
Proof.
  rewrite !filter_if_criteria. unfold query_all, PLFSRecord_query.
  rewrite !bind_criteria_app, !bind_criteria_text. simpl.
  f_equal. unfold select. apply List.filter_ext. intros r.
  change (f_state f) with (filter_field f col_state).
  change (f_gender f) with (filter_field f col_gender).
  change (f_employment_status f) with (filter_field f col_employment_status).
  change (f_year f) with (filter_field f col_year).
  rewrite !row_matches_app, !row_matches_text.
  unfold satisfiesb. simpl. rewrite andb_true_r, !andb_assoc. reflexivity.
Qed.

(** ** Selection *)

Lemma field_ok_spec f r c :
  field_ok f r c = true <->
  (forall V, filter_field f c = Some V -> V <> EmptyString -> column_value c r = V).
Proof.
  unfold field_ok. destruct (filter_field f c) as [s|].
  - rewrite orb_true_iff, !String.eqb_eq. split.
    + intros [He|He] V [= <-] Hne; [contradiction | exact He].
    + intros H. destruct (String.eqb_spec s ""); [by left | right; by apply H].
  - split; [intros _ V [=] | reflexivity].
Qed.

Lemma satisfiesb_spec f r : satisfiesb f r = true <-> satisfies f r.
Proof.
  unfold satisfiesb, satisfies. rewrite forallb_forall. split.
  - intros H c V. apply field_ok_spec, H. destruct c; simpl; tauto.
  - intros H c _. apply field_ok_spec. intros V. apply H.
Qed.

Lemma elem_of_select f store r :
  r ∈ select f store <-> r ∈ store /\ satisfies f r.
Proof.
  unfold select. rewrite !list_elem_of_In, filter_In, satisfiesb_spec. reflexivity.
Qed.

Lemma select_no_filter store : select no_filter store = store.
Proof.
  unfold select. induction store as [|r store IH]; simpl; [reflexivity|].
  by rewrite IH.
Qed.

Lemma form_filter_filter_form f : form_filter (filter_form f) = f.
Proof. destruct f as [[?|] [?|] [?|] [?|]]; reflexivity. Qed.

Lemma download_results_select store form :
  download_results store form = Ok (select (form_filter form) store).
Proof.
  unfold download_results.
  change "state" with (column_key col_state).
  change "gender" with (column_key col_gender).
  change "employment_status" with (column_key col_employment_status).
  change "year" with (column_key col_year).
  rewrite !form_get_filter. apply text_query_selects.
Qed.

Lemma explore_results_select store form :
  exists filters,
    explore_results store form = Ok (filters, select (form_filter form) store).
Proof.
  unfold explore_results.
  pose proof (download_results_select store form) as H.
  unfold download_results in H. rewrite H. eexists. reflexivity.
Qed.

Lemma api_filter_results_dict store members :
  api_filter_results store (Some (PyDict members)) =
  query_all
    (filter_if
       (filter_if
          (filter_if
             (filter_if PLFSRecord_query col_state (json_field members col_state))
             col_gender (json_field members col_gender))
          col_employment_status (json_field members col_employment_status))
       col_year (json_field members col_year))
    store.
Proof. reflexivity. Qed.

Lemma json_field_filter_json f c :
  json_field (map (fun kv => (kv.1, PyStr kv.2)) (filter_entries f)) c =
  from_option PyStr PyNone (filter_field f c).
Proof. destruct f as [[?|] [?|] [?|] [?|]], c; reflexivity. Qed.

Lemma api_filter_results_select store f :
  api_filter_results store (Some (filter_json f)) = Ok (select f store).
Proof.
  unfold filter_json. rewrite api_filter_results_dict, !json_field_filter_json.
  apply text_query_selects.
Qed.


(** ** Suppression *)

Lemma privacy_suppression_test_mode results :
  privacy_suppression true results = results.
Proof. reflexivity. Qed.

Lemma privacy_suppression_production results :
  privacy_suppression false results =
  if decide (5 <= length results)%nat then results else [].
Proof.
  unfold privacy_suppression. simpl.
  destruct (Z.ltb_spec (Z.of_nat (length results)) 5); case_decide; try reflexivity; lia.
Qed.

(** ** The csv writer *)

Lemma string_app_nil_r (s : string) : s +:+ EmptyString = s.
Proof. induction s as [|c s IH]; [reflexivity|]. change (String c (s +:+ "") = String c s). by rewrite IH. Qed.

Lemma string_app_cons c (s t : string) : String c s +:+ t = String c (s +:+ t).
Proof. reflexivity. Qed.

Lemma string_app_nil_l (s : string) : EmptyString +:+ s = s.
Proof. reflexivity. Qed.

Lemma string_app_assoc (s t u : string) : (s +:+ t) +:+ u = s +:+ (t +:+ u).
Proof.
  induction s as [|c s IH]; [reflexivity|].
  rewrite !string_app_cons. by rewrite IH.
Qed.

Lemma csv_writerow_buffer si fields : csv_writerow si fields = si +:+ csv_line fields.
Proof.
  unfold csv_line, csv_writerow.
  destruct fields as [|[|c f] [|g fields]]; rewrite ?string_app_nil_l, ?string_app_assoc;
    reflexivity.
Qed.

Lemma writeheader_plfs si :
  DictWriter_writeheader plfs_writer si = Ok (si +:+ csv_line csv_header).
Proof.
  unfold DictWriter_writeheader, DictWriter_writerow.
  cbn -[csv_writerow csv_line]. by rewrite csv_writerow_buffer.
Qed.

Lemma writerow_plfs si r :
  DictWriter_writerow plfs_writer si (record_dict r) = Ok (si +:+ csv_line (record_fields r)).
Proof.
  unfold DictWriter_writerow.
  cbn -[csv_writerow csv_line]. by rewrite csv_writerow_buffer.
Qed.

Lemma write_rows_plfs si results :
  write_rows plfs_writer si results = Ok (si +:+ csv_lines (map record_fields results)).
Proof.
  revert si. induction results as [|r results IH]; intros si; cbn [write_rows map csv_lines].
  - by rewrite string_app_nil_r.
  - rewrite writerow_plfs. unfold mbind, Result_bind.
    rewrite IH, string_app_assoc. reflexivity.
Qed.

(** The text download_csv writes: nothing for no rows, otherwise the header
    line followed by one line per record. *)
Lemma csv_output_lines results :
  csv_output results =
  Ok (match results with
      | [] => EmptyString
      | _ => csv_lines (csv_header :: map record_fields results)
      end).
Proof.
  unfold csv_output. destruct results as [|r results]; [reflexivity|].
  change {| fieldnames := _ |} with plfs_writer.
  rewrite writeheader_plfs. unfold mbind, Result_bind.
  rewrite write_rows_plfs. reflexivity.
Qed.

(** ** The csv reader inverts the csv writer *)

Section reader_inverts_writer.
Import CsvReader.

Lemma run_cons rd c rest :
  run rd (String c rest) =
  match process_char rd c with
  | None => None
  | Some rd' => run (if Ascii.eqb c LF then process_eol rd' else rd') rest
  end.
Proof. reflexivity. Qed.

Lemma plain_char c :
  csv_special c = false ->
  Ascii.eqb c delimiter = false /\ Ascii.eqb c quotechar = false /\
  is_newline c = false /\ Ascii.eqb c LF = false.
Proof.
  unfold csv_special, is_newline. intros H.
  apply orb_false_elim in H as [H HLF].
  apply orb_false_elim in H as [H HCR].
  apply orb_false_elim in H as [Hd Hq].
  by rewrite Hd, Hq, HCR, HLF.
Qed.

(** An unquoted field: its characters are added one by one. *)
Lemma run_plain s : forall acc F R rest,
  string_exists csv_special s = false ->
  run (mk IN_FIELD acc F R) (s +:+ rest) = run (mk IN_FIELD (acc +:+ s) F R) rest.
Proof.
  induction s as [|c s IH]; intros acc F R rest Hs.
  - by rewrite string_app_nil_l, string_app_nil_r.
  - cbn [string_exists] in Hs. apply orb_false_elim in Hs as [Hc Hs].
    destruct (plain_char c Hc) as (Hd & Hq & Hn & HLF).
    rewrite string_app_cons, run_cons. unfold process_char. cbn [state].
    rewrite Hn, Hd, HLF. unfold add_char. cbn [field fields rows].
    rewrite IH by done. rewrite string_app_assoc. reflexivity.
Qed.

Lemma run_plain_start st s F R rest :
  at_start st -> s <> EmptyString ->
  string_exists csv_special s = false ->
  run (mk st EmptyString F R) (s +:+ rest) = run (mk IN_FIELD s F R) rest.
Proof.
  intros Hst Hne Hs. destruct s as [|c s]; [done|].
  cbn [string_exists] in Hs. apply orb_false_elim in Hs as [Hc Hs].
  destruct (plain_char c Hc) as (Hd & Hq & Hn & HLF).
  rewrite string_app_cons, run_cons.
  assert (process_char (mk st "" F R) c = Some (mk IN_FIELD (String c "") F R)) as ->.
  { unfold process_char, start_field. cbn [state].
    destruct Hst as [-> | ->]; rewrite Hn, ?Hq, ?Hd; reflexivity. }
  rewrite HLF. by rewrite run_plain.
Qed.

(** The inside of a quoted field, up to the closing quote. *)
Lemma run_quoted s : forall acc F R rest,
  run (mk IN_QUOTED_FIELD acc F R) (csv_double s +:+ String quotechar rest) =
  run (mk QUOTE_IN_QUOTED_FIELD (acc +:+ s) F R) rest.
Proof.
  induction s as [|c s IH]; intros acc F R rest.
  - cbn [csv_double]. rewrite string_app_nil_l, string_app_nil_r. reflexivity.
  - cbn [csv_double]. destruct (Ascii.eqb c quotechar) eqn:Hq.
    + apply Ascii.eqb_eq in Hq as ->.
      rewrite !string_app_cons.
      change (run (mk IN_QUOTED_FIELD acc F R)
                (String quotechar (String quotechar (csv_double s +:+ String quotechar rest))))
        with (run (mk IN_QUOTED_FIELD (acc +:+ String quotechar "") F R)
                (csv_double s +:+ String quotechar rest)).
      rewrite IH, string_app_assoc. reflexivity.
    + rewrite string_app_cons, run_cons. unfold process_char. cbn [state].
      rewrite Hq. unfold add_char. cbn [field fields rows].
      assert ((if Ascii.eqb c LF
               then process_eol (mk IN_QUOTED_FIELD (acc +:+ String c "") F R)
               else mk IN_QUOTED_FIELD (acc +:+ String c "") F R)
              = mk IN_QUOTED_FIELD (acc +:+ String c "") F R) as ->
        by (by destruct (Ascii.eqb c LF)).
      rewrite IH, string_app_assoc. reflexivity.
Qed.

Lemma run_quoted_start st s F R rest :
  at_start st ->
  run (mk st EmptyString F R)
      (String quotechar (csv_double s +:+ String quotechar EmptyString) +:+ rest) =
  run (mk QUOTE_IN_QUOTED_FIELD s F R) rest.
Proof.
  intros Hst. rewrite string_app_cons, string_app_assoc, string_app_cons, string_app_nil_l.
  pose proof (run_quoted s "" F R rest) as H. rewrite string_app_nil_l in H.
  rewrite <- H. destruct Hst as [-> | ->]; reflexivity.
Qed.

(** A field followed by the delimiter. *)
Lemma run_field_delimiter st f F R rest :
  at_start st ->
  run (mk st EmptyString F R) (csv_field f +:+ String delimiter rest) =
  run (mk START_FIELD EmptyString (F ++ [f]) R) rest.
Proof.
  intros Hst. unfold csv_field. destruct (string_exists csv_special f) eqn:Hs.
  - rewrite run_quoted_start by done. reflexivity.
  - destruct f as [|c f].
    + destruct Hst as [-> | ->]; reflexivity.
    + rewrite run_plain_start by done. reflexivity.
Qed.

(** The last field of a record, followed by the line terminator. *)
Lemma run_field_eol st f F R rest :
  at_start st ->
  (st = START_RECORD -> csv_field f <> EmptyString) ->
  run (mk st EmptyString F R) (csv_field f +:+ lineterminator +:+ rest) =
  run (mk START_RECORD EmptyString [] (R ++ [F ++ [f]])) rest.
Proof.
  intros Hst Hne. revert Hne. unfold csv_field.
  destruct (string_exists csv_special f) eqn:Hs; intros Hne.
  - rewrite run_quoted_start by done. reflexivity.
  - destruct f as [|c f].
    + destruct Hst as [-> | ->]; [by destruct Hne | reflexivity].
    + rewrite run_plain_start by done. reflexivity.
Qed.

Lemma run_join fields : forall st F R rest,
  fields <> [] ->
  at_start st ->
  (st = START_RECORD -> fields <> [EmptyString]) ->
  run (mk st EmptyString F R) (csv_join fields +:+ lineterminator +:+ rest) =
  run (mk START_RECORD EmptyString [] (R ++ [F ++ fields])) rest.
Proof.
  induction fields as [|f fields IH]; intros st F R rest Hnil Hst Hne; [done|].
  destruct fields as [|g fields].
  - cbn [csv_join]. apply run_field_eol; [done|].
    intros Hrec Hf. apply (Hne Hrec). f_equal.
    unfold csv_field in Hf. by destruct (string_exists csv_special f).
  - change (csv_join (f :: g :: fields))
      with (csv_field f +:+ String delimiter (csv_join (g :: fields))).
    rewrite string_app_assoc, string_app_cons, run_field_delimiter by done.
    rewrite IH; [|done|by right|done]. by rewrite <- app_assoc.
Qed.

(** One line of the writer is read back as one record. *)
Lemma run_line fields R rest :
  fields <> [] ->
  run (mk START_RECORD EmptyString [] R) (csv_line fields +:+ rest) =
  run (mk START_RECORD EmptyString [] (R ++ [fields])) rest.
Proof.
  intros Hnil. destruct (decide (fields = [EmptyString])) as [-> | Hne].
  - reflexivity.
  - assert (csv_line fields = csv_join fields +:+ lineterminator) as ->.
    { unfold csv_line, csv_writerow.
      destruct fields as [|[|c f] [|g fields]]; try done. }
    rewrite string_app_assoc. rewrite run_join; [done..|by left|done].
Qed.

Lemma run_lines records : forall R,
  Forall (fun fields => fields <> []) records ->
  run (mk START_RECORD EmptyString [] R) (csv_lines records) = Some (R ++ records).
Proof.
  induction records as [|fields records IH]; intros R Hall.
  - by rewrite app_nil_r.
  - apply Forall_cons in Hall as [Hf Hall]. cbn [csv_lines].
    rewrite run_line by done. rewrite IH by done. by rewrite <- app_assoc.
Qed.

(** Whatever records the writer is given, the reader returns them. *)
Lemma reader_csv_lines records :
  Forall (fun fields => fields <> []) records ->
  reader (csv_lines records) = Some records.
Proof. intros H. unfold reader. by rewrite run_lines. Qed.

End reader_inverts_writer.

(** ** Parsing an export back *)

Lemma int_of_str_str_of_int n : int_of_str (str_of_int n) = Some n.
Proof.
  unfold int_of_str, str_of_int. rewrite NilZero.isi.
  - simpl. by rewrite DecimalZ.of_to.
  - destruct n; simpl; [discriminate| |discriminate].
    intros [= H]. by apply DecimalPos.Unsigned.to_uint_nonnil in H.
  - destruct n; simpl; [discriminate|discriminate|].
    intros [= H]. by apply DecimalPos.Unsigned.to_uint_nonnil in H.
Qed.

Lemma record_of_row_fields r :
  record_of_row (reverse (zip csv_header (record_fields r))) = Some (record_json r).
Proof.
  unfold record_of_row, record_fields, csv_header.
  cbn -[int_of_str str_of_int]. rewrite !int_of_str_str_of_int. reflexivity.
Qed.

Lemma DictReader_export results :
  CsvReader.DictReader (csv_header :: map record_fields results) =
  map (fun r => reverse (zip csv_header (record_fields r))) results.
Proof.
  unfold CsvReader.DictReader. induction results as [|r results IH]; [reflexivity|].
  cbn [map List.filter record_fields]. by rewrite IH.
Qed.

Lemma parse_csv_export results :
  parse_csv (csv_lines (csv_header :: map record_fields results)) =
  Some (map record_json results).
Proof.
  unfold parse_csv. rewrite reader_csv_lines.
  - cbn [mbind option_bind]. rewrite DictReader_export.
    induction results as [|r results IH]; [reflexivity|].
    cbn [map mapM]. rewrite record_of_row_fields. cbn [mbind option_bind].
    cbn [map mapM] in IH. rewrite IH. reflexivity.
  - constructor; [done|]. apply Forall_map, Forall_forall. intros r _. done.
Qed.

(** Whatever rows download_csv writes, parsing its output gives the record
    objects jsonify is handed for the same rows. *)
Lemma parse_csv_output results :
  exists body, csv_output results = Ok body /\
               parse_csv body = Some (map record_json results).
Proof.
  rewrite csv_output_lines. eexists. split; [reflexivity|].
  destruct results as [|r results]; [reflexivity|]. apply parse_csv_export.
Qed.

(** ** Stripping and the loaded table *)

Lemma lstrip_head s :
  lstrip s = EmptyString \/
  exists c t, lstrip s = String c t /\ py_isspace c = false.
Proof.
  induction s as [|c s IH]; [by left|]. cbn [lstrip].
  destruct (py_isspace c) eqn:Hc; [exact IH | right; eauto].
Qed.

Lemma rstrip_head c s :
  py_isspace c = false -> exists t, rstrip (String c s) = String c t.
Proof.
  intros Hc. cbn [rstrip]. destruct (rstrip s); [rewrite Hc|]; eauto.
Qed.

Lemma rstrip_idemp s : rstrip (rstrip s) = rstrip s.
Proof.
  induction s as [|c s IH]; [reflexivity|]. cbn [rstrip].
  destruct (rstrip s) as [|d t] eqn:Hs.
  - destruct (py_isspace c) eqn:Hc; [reflexivity|]. cbn [rstrip]. by rewrite Hc.
  - change (rstrip (String c (String d t)))
      with (match rstrip (String d t) with
            | EmptyString => if py_isspace c then EmptyString else String c EmptyString
            | u => String c u
            end).
    by rewrite IH.
Qed.

Lemma strip_idemp s : strip (strip s) = strip s.
Proof.
  unfold strip. destruct (lstrip_head s) as [-> | (c & t & -> & Hc)]; [reflexivity|].
  destruct (rstrip_head c t Hc) as [u Hu]. rewrite Hu.
  cbn [lstrip]. rewrite Hc, <- Hu. apply rstrip_idemp.
Qed.

(** Every text value of a loaded table is already stripped. *)
Lemma load_csv_to_db_stripped df r c :
  r ∈ load_csv_to_db df -> strip (column_value c r) = column_value c r.
Proof.
  unfold load_csv_to_db. intros (i & row & -> & _)%elem_of_lookup_imap.
  destruct c; apply strip_idemp.
Qed.

(** ** Dropdown lists *)

Lemma elem_of_dropdown c store v :
  v ∈ dropdown c store <->
  exists r, r ∈ store /\ column_value c r <> EmptyString /\ strip (column_value c r) = v.
Proof.
  unfold dropdown, py_sorted.
  rewrite merge_sort_Permutation, elem_of_elements, elem_of_list_to_set.
  rewrite list_elem_of_In, in_map_iff. split.
  - intros (x & <- & Hx). apply filter_In in Hx as [Hx Hne].
    apply list_elem_of_In, elem_of_remove_dups, list_elem_of_In, in_map_iff in Hx
      as (r & <- & Hr).
    exists r. split; [by apply list_elem_of_In|]. split; [|done].
    cbn [py_truthy] in Hne. intros He. by rewrite He in Hne.
  - intros (r & Hr & Hne & <-). exists (column_value c r). split; [done|].
    apply filter_In. split.
    + apply list_elem_of_In, elem_of_remove_dups, list_elem_of_In, in_map_iff.
      exists r. split; [done|]. by apply list_elem_of_In.
    + cbn [py_truthy]. apply negb_true_iff, String.eqb_neq, Hne.
Qed.

Lemma dropdown_sorted c store : Sorted String.le (dropdown c store).
Proof. unfold dropdown, py_sorted. apply (Sorted_merge_sort _). Qed.

Lemma dropdown_NoDup c store : NoDup (dropdown c store).
Proof.
  unfold dropdown, py_sorted. rewrite merge_sort_Permutation. apply NoDup_elements.
Qed.

(** On a table whose values are stripped the list is the dropdown list of
    the specification. *)
Lemma dropdown_of_stripped c store :
  (forall r, r ∈ store -> strip (column_value c r) = column_value c r) ->
  is_dropdown_of c store (dropdown c store).
Proof.
  intros Hstripped. split; [apply dropdown_sorted|]. split; [apply dropdown_NoDup|].
  intros v. rewrite elem_of_dropdown. split.
  - intros (r & Hr & Hne & <-). rewrite (Hstripped r Hr). eauto.
  - intros (Hne & r & Hr & <-). exists r. rewrite (Hstripped r Hr). eauto.
Qed.

(** The specification determines the list. *)
Lemma is_dropdown_of_unique c store l1 l2 :
  is_dropdown_of c store l1 -> is_dropdown_of c store l2 -> l1 = l2.
Proof.
  intros (Hs1 & Hd1 & H1) (Hs2 & Hd2 & H2).
  apply (Sorted_unique String.le); [done..|].
  apply NoDup_Permutation; [done..|]. intros v. by rewrite H1, H2.
Qed.

(** ** Routing *)

Lemma app_explore_post test_mode store form body :
  app test_mode store (post "/explore" form body) = explore test_mode store POST form.
Proof. reflexivity. Qed.

Lemma app_download_csv test_mode store form body :
  app test_mode store (post "/download_csv" form body) = download_csv test_mode store form.
Proof. reflexivity. Qed.

Lemma app_download_excel test_mode store form body :
  app test_mode store (post "/download_excel" form body) =
  download_excel test_mode store form.
Proof. reflexivity. Qed.

Lemma app_api_filter test_mode store form v :
  app test_mode store (post "/api/filter" form (Some v)) = api_filter store (Some v).
Proof. reflexivity. Qed.

Lemma app_api_data test_mode store :
  app test_mode store (get "/api/data") = api_data store.
Proof. reflexivity. Qed.

(** ** What the filtered routes answer *)

Lemma explore_post_context test_mode store form :
  exists filters,
    explore test_mode store POST form =
    Ok (RenderTemplate "explore.html"
          (Some {| ctx_filters := filters;
                   ctx_results :=
                     map instance_dict
                       (privacy_suppression test_mode (select (form_filter form) store));
                   ctx_states := dropdown col_state store;
                   ctx_genders := dropdown col_gender store;
                   ctx_emp_status := dropdown col_employment_status store;
                   ctx_years := dropdown col_year store |})).
Proof.
  destruct (explore_results_select store form) as [filters H].
  exists filters. unfold explore. rewrite H. reflexivity.
Qed.

Lemma download_csv_body test_mode store form :
  download_csv test_mode store form =
  Ok (CsvAttachment
        (match privacy_suppression test_mode (select (form_filter form) store) with
         | [] => EmptyString
         | results => csv_lines (csv_header :: map record_fields results)
         end)).
Proof.
  unfold download_csv. rewrite download_results_select. unfold mbind, Result_bind.
  rewrite csv_output_lines.
  by destruct (privacy_suppression test_mode (select (form_filter form) store)).
Qed.

Lemma download_excel_workbook test_mode store form :
  download_excel test_mode store form =
  excel_output (privacy_suppression test_mode (select (form_filter form) store)).
Proof. unfold download_excel. by rewrite download_results_select. Qed.

Lemma api_filter_json store f :
  api_filter store (Some (filter_json f)) = Ok (Jsonify (records_json (select f store))).
Proof. unfold api_filter. by rewrite api_filter_results_select. Qed.

Lemma select_unconstrained f store :
  (forall c, filter_field f c = None \/ filter_field f c = Some EmptyString) ->
  select f store = store.
Proof.
  intros H. unfold select.
  assert (forall r, satisfiesb f r = true) as Hall.
  { intros r. apply satisfiesb_spec. intros c V HV Hne.
    destruct (H c) as [Hc|Hc]; rewrite Hc in HV; [done|]. by injection HV as <-. }
  induction store as [|r store IH]; [reflexivity|].
  cbn [List.filter]. by rewrite Hall, IH.
Qed.

(** ** Values that are not text *)

Lemma str_of_int_nonempty n : str_of_int n <> EmptyString.
Proof.
  intros H. pose proof (int_of_str_str_of_int n) as Hn. rewrite H in Hn. discriminate.
Qed.




Lemma bind_criteria_sound q params c v :
  mapM bind_criterion q = Ok params ->
  ColumnEq c v ∈ q ->
  exists p, bind_param v = Ok p /\ (c, p) ∈ params.
Proof.
  revert params. induction q as [|[c' v'] q IH]; intros params Hq Hin.
  - by apply elem_of_nil in Hin.
  - cbn [mapM bind_criterion] in Hq.
    destruct (bind_param v') as [p'|] eqn:Hv'; [|discriminate].
    cbn [mbind Result_bind] in Hq.
    destruct (mapM bind_criterion q) as [l|] eqn:Hl; [|discriminate].
    injection Hq as <-.
    apply elem_of_cons in Hin as [[= -> ->] | Hin].
    + exists p'. split; [done | by left].
    + destruct (IH l eq_refl Hin) as (p & Hp & Hpl). exists p. split; [done | by right].
Qed.

(** A row that [Query.all()] returns is in the table and passes every
    criterion of the query. *)
Lemma query_all_sound q store rs r c v :
  query_all q store = Ok rs ->
  r ∈ rs ->
  ColumnEq c v ∈ q ->
  r ∈ store /\
  exists p, bind_param v = Ok p /\ sqlite_text_eq (column_value c r) p = true.
Proof.
  unfold query_all. destruct (mapM bind_criterion q) as [params|] eqn:Hq; [|discriminate].
  intros [= <-] Hr Hin.
  apply list_elem_of_In, filter_In in Hr as [Hr Hm]. split; [by apply list_elem_of_In|].
  destruct (bind_criteria_sound q params c v Hq Hin) as (p & Hp & Hpl).
  exists p. split; [done|].
  unfold row_matches in Hm. rewrite forallb_forall in Hm.
  by apply (Hm (c, p)), list_elem_of_In.
Qed.

(** A value that passes the truth test never compares equal to the empty
    text. *)
Lemma truthy_never_matches_empty v p :
  py_truthy v = true -> bind_param v = Ok p -> sqlite_text_eq EmptyString p = false.
Proof.
  destruct v; cbn [py_truthy bind_param]; try discriminate.
  - intros -> [= <-]. reflexivity.
  - intros _. destruct ((- 2 ^ 63 <=? n) && (n <? 2 ^ 63)); [|discriminate].
    intros [= <-]. cbn [sqlite_text_eq]. apply String.eqb_neq.
    intros H. by apply (str_of_int_nonempty n).
  - intros Hs [= <-]. cbn [sqlite_text_eq]. apply negb_true_iff in Hs.
    by rewrite String.eqb_sym.
Qed.


Lemma api_filter_selected_nonempty store members rs c r :
  api_filter_results store (Some (PyDict members)) = Ok rs ->
  py_truthy (json_field members c) = true ->
  r ∈ rs ->
  column_value c r <> EmptyString.
Proof.
  rewrite api_filter_results_dict, !filter_if_criteria. intros Hq Hv Hr.
  assert (ColumnEq c (json_field members c) ∈
            (((PLFSRecord_query ++ criteria col_state (json_field members col_state))
                ++ criteria col_gender (json_field members col_gender))
               ++ criteria col_employment_status (json_field members col_employment_status))
              ++ criteria col_year (json_field members col_year)) as Hin.
  { rewrite !elem_of_app. unfold criteria at 1 2 3 4.
    destruct c; rewrite Hv; set_solver. }
  destruct (query_all_sound _ _ _ _ _ _ Hq Hr Hin) as (_ & p & Hp & Heq).
  intros He. rewrite He in Heq.
  by rewrite (truthy_never_matches_empty _ _ Hv Hp) in Heq.
Qed.

Lemma form_selected_nonempty store form c r :
  py_truthy (form_get form (column_key c)) = true ->
  r ∈ select (form_filter form) store ->
  column_value c r <> EmptyString.
Proof.
  rewrite form_get_filter. intros Hv [_ Hsat]%elem_of_select.
  destruct (filter_field (form_filter form) c) as [V|] eqn:HV; [|discriminate].
  cbn [from_option py_truthy] in Hv. apply negb_true_iff, String.eqb_neq in Hv.
  by rewrite (Hsat c V HV Hv).
Qed.

Lemma select_form_empty_value store form c :
  dict_get (column_key c) form = None ->
  select (form_filter ((column_key c, EmptyString) :: form)) store =
  select (form_filter form) store.
Proof.
  intros H. unfold select. apply List.filter_ext. intros r.
  unfold satisfiesb, field_ok.
  destruct c; cbn in H |- *; rewrite H; reflexivity.
Qed.

Lemma api_filter_falsy_value store members c v :
  dict_get (column_key c) members = None ->
  py_truthy v = false ->
  api_filter_results store (Some (PyDict ((column_key c, v) :: members))) =
  api_filter_results store (Some (PyDict members)).
Proof.
  intros H Hv. rewrite !api_filter_results_dict. unfold json_field.
  destruct c; cbn in H |- *; rewrite H; cbn; unfold filter_if at 1 2 3 4; rewrite ?Hv;
    reflexivity.
Qed.


(** ** The query api_filter builds *)

Lemma query_all_params q store :
  query_all q store =
  match mapM bind_criterion q with
  | Ok params => Ok (List.filter (row_matches params) store)
  | Raise e => Raise e
  end.
Proof. unfold query_all. by destruct (mapM bind_criterion q). Qed.

Lemma query_all_same_text q1 q2 c n store :
  n <> 0 -> - 2 ^ 63 <= n < 2 ^ 63 ->
  query_all (q1 ++ criteria c (PyInt n) ++ q2) store =
  query_all (q1 ++ criteria c (PyStr (str_of_int n)) ++ q2) store.
Proof.
  intros Hn Hrange. rewrite !query_all_params, !bind_criteria_app.
  unfold criteria. cbn [py_truthy].
  apply Z.eqb_neq in Hn. rewrite Hn.
  assert (String.eqb (str_of_int n) "" = false) as ->
    by apply String.eqb_neq, str_of_int_nonempty.
  cbn [negb mapM bind_criterion bind_param].
  assert ((- 2 ^ 63 <=? n) && (n <? 2 ^ 63) = true) as ->.
  { apply andb_true_iff. split; [apply Z.leb_le | apply Z.ltb_lt]; lia. }
  destruct (mapM bind_criterion q1) as [p1|]; [|reflexivity].
  destruct (mapM bind_criterion q2) as [p2|]; [|reflexivity].
  cbn [mbind mret Result_bind Result_ret List.app]. f_equal.
  apply List.filter_ext. intros r. by rewrite !row_matches_app.
Qed.







(** ** The spreadsheet writer *)

Lemma xlsx_text_accepted s :
  xlsx_text s =
  if accepted s then Ok (text_cell (string_take (Z.to_nat 32767) s))
  else Raise IllegalCharacterError.
Proof.
  unfold xlsx_text, check_string, accepted.
  by destruct (string_exists illegal_character (string_take (Z.to_nat 32767) s)).
Qed.

Lemma xlsx_row_cells r :
  mapM (fun kv : string * Cell => xlsx_cell kv.2) (record_dict r) =
  if writable r then Ok (xlsx_row r) else Raise IllegalCharacterError.
Proof.
  unfold writable, record_texts, record_dict, xlsx_row.
  cbn [mapM map columns column_value forallb snd xlsx_cell]. rewrite !xlsx_text_accepted.
  destruct (accepted (PLFSRecord.state r)), (accepted (PLFSRecord.gender r)),
    (accepted (PLFSRecord.year r)), (accepted (PLFSRecord.employment_status r));
    reflexivity.
Qed.

Lemma xlsx_rows_cells results :
  mapM (fun d : list (string * Cell) => mapM (fun kv => xlsx_cell kv.2) d)
       (map record_dict results) =
  if forallb writable results then Ok (map xlsx_row results)
  else Raise IllegalCharacterError.
Proof.
  induction results as [|r rs IH]; [reflexivity|].
  cbn [map mapM forallb]. rewrite xlsx_row_cells.
  destruct (writable r); [|reflexivity]. cbn [mbind Result_bind andb].
  rewrite IH. by destruct (forallb writable rs).
Qed.

Lemma xlsx_header_cells r :
  mapM (fun kv : string * Cell => xlsx_text kv.1) (record_dict r) =
  Ok (map XText csv_header).
Proof. vm_compute. reflexivity. Qed.

(** What download_excel answers for the rows that are left: pandas refuses
    more than 2^20 rows, openpyxl refuses a text with an illegal character,
    and otherwise the sheet holds the header and one row per record. *)
Lemma excel_output_sheet results :
  excel_output results =
  if 2 ^ 20 <? Z.of_nat (length results) then Raise ValueError
  else if forallb writable results
       then Ok (ExcelAttachment
                  {| sheet_name := "PLFS_Data";
                     sheet_rows :=
                       match results with
                       | [] => []
                       | _ => map XText csv_header :: map xlsx_row results
                       end |})
       else Raise IllegalCharacterError.
Proof.
  unfold excel_output, to_excel. rewrite length_map.
  destruct (2 ^ 20 <? Z.of_nat (length results)); [reflexivity|].
  destruct results as [|r rs]; [reflexivity|].
  cbn [map]. rewrite xlsx_header_cells. cbn [mbind Result_bind].
  change (record_dict r :: map record_dict rs) with (map record_dict (r :: rs)).
  rewrite xlsx_rows_cells. by destruct (forallb writable (r :: rs)).
Qed.


Lemma excel_output_row_count results rows :
  excel_rows (excel_output results) = Some rows ->
  length rows = match results with [] => 0%nat | _ => S (length results) end.
Proof.
  rewrite excel_output_sheet.
  destruct (2 ^ 20 <? Z.of_nat (length results)); [discriminate|].
  destruct (forallb writable results); [|discriminate].
  intros [= <-]. cbn [sheet_rows]. destruct results as [|r rs]; [reflexivity|].
  cbn [length]. by rewrite length_map.
Qed.

(** ** The scenario, evaluated *)

Example scenario_state_CA :
  api_filter_results example_store (Some (PyDict [("state", PyStr "CA")])) =
  Ok [ PLFSRecord.mk 1 "CA" "F" 30 "2021" "Employed" 50000;
       PLFSRecord.mk 3 "CA" "M" 40 "2020" "Employed" 60000 ].
Proof. vm_compute. reflexivity. Qed.

Example scenario_year_and_state :
  download_results example_store [("year", "2020"); ("state", "CA")] =
  Ok [ PLFSRecord.mk 3 "CA" "M" 40 "2020" "Employed" 60000 ].
Proof. vm_compute. reflexivity. Qed.

Example scenario_csv :
  csv_body (download_csv TEST_MODE example_store [("year", "2020"); ("state", "CA")]) =
  Some ("state,gender,age,year,employment_status,wage" +:+ lineterminator
        +:+ "CA,M,40,2020,Employed,60000" +:+ lineterminator).
Proof. vm_compute. reflexivity. Qed.

(** * The claims of the specification *)

(** C1.  Filter application is an exact conjunction of equality
    constraints.  On every store, the rows that explore (POST),
    download_csv and download_excel select for a form, and the rows that
    api_filter selects for the JSON object of a filter, are the records of
    the store that satisfy the filter, in store order: a record is selected
    if and only if it is in the store and agrees with every field that is
    set to a non-empty value.  A filter whose fields are all unset, or all
    empty, selects the whole store. *)
Theorem filter_is_exact_conjunction (store : Store) :
  (forall form : Form,
      (exists filters,
          explore_results store form = Ok (filters, select (form_filter form) store)) /\
      download_results store form = Ok (select (form_filter form) store)) /\
  (forall f : Filter,
      form_filter (filter_form f) = f /\
      api_filter_results store (Some (filter_json f)) = Ok (select f store)) /\
  (forall (f : Filter) (r : PLFSRecord.t),
      r ∈ select f store <-> r ∈ store /\ satisfies f r) /\
  select no_filter store = store /\
  select (Build_Filter (Some "") (Some "") (Some "") (Some "")) store = store.
Proof.
  split; [|split; [|split; [|split]]].
  - intros form. split; [apply explore_results_select | apply download_results_select].
  - intros f. split; [apply form_filter_filter_form | apply api_filter_results_select].
  - intros f r. apply elem_of_select.
  - apply select_no_filter.
  - apply select_unconstrained. intros c. right. by destruct c.
Qed.

(** C2.  The privacy suppressor returns the result set unchanged in test
    mode or when it has 5 or more rows, and an empty set otherwise: in
    production mode a set of 4 rows is emptied and a set of 5 rows passes,
    and in test mode every set passes whatever its size. *)
Theorem privacy_suppression_contract (test_mode : bool) (results : list PLFSRecord.t) :
  (test_mode = true \/ (5 <= length results)%nat ->
   privacy_suppression test_mode results = results) /\
  (test_mode = false /\ (length results < 5)%nat ->
   privacy_suppression test_mode results = []) /\
  (length results = 4%nat -> privacy_suppression false results = []) /\
  (length results = 5%nat -> privacy_suppression false results = results) /\
  privacy_suppression true results = results.
Proof.
  split; [|split; [|split; [|split]]].
  - intros [-> | H]; [reflexivity|].
    destruct test_mode; [reflexivity|].
    rewrite privacy_suppression_production. by case_decide.
  - intros [-> H]. rewrite privacy_suppression_production. case_decide; [lia | done].
  - intros H. rewrite privacy_suppression_production. case_decide; [lia | done].
  - intros H. rewrite privacy_suppression_production. case_decide; [done | lia].
  - reflexivity.
Qed.

Lemma privacy_suppression_contract_witness :
  privacy_suppression false (take 4 (example_store ++ example_store)) = [] /\
  privacy_suppression false (take 5 (example_store ++ example_store)) =
    take 5 (example_store ++ example_store).
Proof.
  split.
  - exact (proj1 (proj2 (proj2
      (privacy_suppression_contract false (take 4 (example_store ++ example_store)))))
      eq_refl).
  - exact (proj1 (proj2 (proj2 (proj2
      (privacy_suppression_contract false (take 5 (example_store ++ example_store))))))
      eq_refl).
Defined.

(** C3.  The claim is that every filtered request passes through the
    privacy suppressor, so that api_filter never returns a non-empty array
    of fewer than 5 records in production mode.  The route does not consult
    the mode: whatever the mode, it answers with every selected record.  In
    production mode, on the three records of the scenario, the filter
    state = CA makes api_filter return the two matching records, while the
    suppressor empties that set and download_csv, given the same filter,
    returns an empty file. *)
Theorem api_filter_skips_suppression :
  (forall test_mode store f,
      json_items (app test_mode store (post "/api/filter" [] (Some (filter_json f)))) =
        Some (map record_json (select f store))) /\
  let f := Build_Filter (Some "CA") None None None in
  json_items (app false example_store (post "/api/filter" [] (Some (filter_json f)))) =
    Some (map record_json (select f example_store)) /\
  length (select f example_store) = 2%nat /\
  privacy_suppression false (select f example_store) = [] /\
  csv_body (app false example_store (post "/download_csv" (filter_form f) None)) =
    Some EmptyString.
Proof.
  split.
  - intros test_mode store f. by rewrite app_api_filter, api_filter_json.
  - cbv zeta. split; [|split; [|split]]; vm_compute; reflexivity.
Qed.

(** C4.  As shipped the mode flag is test mode, so nothing is suppressed:
    on every store and for every form, explore (POST), download_csv and
    download_excel answer with all the selected rows, also when there are
    fewer than 5 of them.  For download_excel the answer is the workbook
    written for all the selected rows: when it is written, its sheet has
    the header row and one row for each of them. *)
Theorem shipped_mode_never_suppresses (store : Store) (form : Form) :
  let results := select (form_filter form) store in
  TEST_MODE = true /\
  ctx_results <$> explore_context (app TEST_MODE store (post "/explore" form None)) =
    Some (map instance_dict results) /\
  csv_body (app TEST_MODE store (post "/download_csv" form None)) =
    Some (match results with
          | [] => EmptyString
          | _ => csv_lines (csv_header :: map record_fields results)
          end) /\
  app TEST_MODE store (post "/download_excel" form None) = excel_output results /\
  (forall rows,
      excel_rows (app TEST_MODE store (post "/download_excel" form None)) = Some rows ->
      length rows = match results with [] => 0%nat | _ => S (length results) end).
Proof.
  intros results.
  assert (app TEST_MODE store (post "/download_excel" form None) = excel_output results)
    as Hexcel.
  { rewrite app_download_excel, download_excel_workbook.
    by rewrite privacy_suppression_test_mode. }
  split; [reflexivity|]. split; [|split; [|split]].
  - rewrite app_explore_post.
    destruct (explore_post_context TEST_MODE store form) as [filters ->]. reflexivity.
  - rewrite app_download_csv, download_csv_body.
    rewrite privacy_suppression_test_mode. fold results. by destruct results.
  - exact Hexcel.
  - intros rows. rewrite Hexcel. apply excel_output_row_count.
Qed.

Lemma shipped_mode_never_suppresses_witness :
  exists rows,
    excel_rows (app TEST_MODE example_store (post "/download_excel" [("state", "CA")] None)) =
      Some rows /\
    length rows = 3%nat.
Proof.
  eexists. split; [vm_compute; reflexivity|].
  exact (proj2 (proj2 (proj2 (proj2
           (shipped_mode_never_suppresses example_store [("state", "CA")])))) _ eq_refl).
Defined.

(** C5.  The fetch-all route filters nothing and suppresses nothing: on
    every store and in every mode, a GET of /api/data answers with a JSON
    array that holds, for each record of the store and in store order, one
    object with the fields state, gender, age, year, employment_status and
    wage of that record. *)
Theorem api_data_returns_every_record (test_mode : bool) (store : Store) :
  exists items,
    app test_mode store (get "/api/data") = Ok (Jsonify (PyList items)) /\
    length items = length store /\
    items =
      map (fun r =>
             PyDict [ ("state", PyStr (PLFSRecord.state r));
                      ("gender", PyStr (PLFSRecord.gender r));
                      ("age", PyInt (PLFSRecord.age r));
                      ("year", PyStr (PLFSRecord.year r));
                      ("employment_status", PyStr (PLFSRecord.employment_status r));
                      ("wage", PyInt (PLFSRecord.wage r)) ])
          store.
Proof.
  rewrite app_api_data. unfold api_data, query_all, PLFSRecord_query.
  cbn [mapM mbind mret Result_bind Result_ret].
  assert (List.filter (row_matches []) store = store) as ->.
  { induction store as [|r store IH]; [reflexivity|]. cbn. by rewrite IH. }
  eexists. split; [reflexivity|]. split; [apply length_map | reflexivity].
Qed.

(** C6.  The CSV export of a result set that is left after suppression: an
    empty payload, without a header, when the set is empty; otherwise the
    header line state, gender, age, year, employment_status, wage followed
    by one line per record, in the order of the set, which a CSV reader
    reads back as the header record and one record of six fields per row.
    It is what download_csv sends for every store, form and mode. *)
Theorem csv_export_layout :
  csv_output [] = Ok EmptyString /\
  (forall r rs,
      let results := r :: rs in
      let body :=
        ("state,gender,age,year,employment_status,wage" +:+ lineterminator)
        +:+ csv_lines (map record_fields results) in
      csv_output results = Ok body /\
      CsvReader.reader body =
        Some (["state"; "gender"; "age"; "year"; "employment_status"; "wage"]
                :: map record_fields results)) /\
  (forall test_mode store form,
      exists body,
        download_csv test_mode store form = Ok (CsvAttachment body) /\
        csv_output (privacy_suppression test_mode (select (form_filter form) store)) =
          Ok body).
Proof.
  split; [reflexivity|]. split.
  - intros r rs results body.
    assert (body = csv_lines (csv_header :: map record_fields results)) as -> by reflexivity.
    split; [by rewrite csv_output_lines|].
    apply reader_csv_lines. constructor; [done|].
    apply Forall_map, Forall_forall. by intros r' _.
  - intros test_mode store form. eexists. split; [apply download_csv_body|].
    rewrite csv_output_lines.
    by destruct (privacy_suppression test_mode (select (form_filter form) store)).
Qed.

(** When the suppressor leaves the selected rows alone, parsing the CSV
    that download_csv sends for a filter gives exactly the objects that
    api_filter returns for it, in the same order. *)
Lemma csv_json_round_trip (test_mode : bool) (store : Store) (f : Filter) :
  test_mode = true \/ (5 <= length (select f store))%nat \/ select f store = [] ->
  exists body items,
    csv_body (app test_mode store (post "/download_csv" (filter_form f) None)) = Some body /\
    json_items (app test_mode store (post "/api/filter" [] (Some (filter_json f)))) =
      Some items /\
    parse_csv body = Some items.
Proof.
  intros Hmode.
  assert (privacy_suppression test_mode (select f store) = select f store) as Hkeep.
  { destruct Hmode as [-> | [H | ->]]; [reflexivity | | by destruct test_mode].
    destruct test_mode; [reflexivity|].
    rewrite privacy_suppression_production. by case_decide. }
  rewrite app_download_csv, app_api_filter, download_csv_body, api_filter_json.
  rewrite form_filter_filter_form, Hkeep.
  eexists _, _. split; [reflexivity|]. split; [reflexivity|].
  destruct (select f store) as [|r rs] eqn:Hsel; [reflexivity|].
  apply parse_csv_export.
Qed.

(** C7.  The claim is that, for a fixed mode, the CSV of download_csv
    parses back to the JSON array of api_filter for the same filter.  In
    production mode, on the three records of the scenario and the filter
    state = CA, download_csv sends an empty file, which parses to no
    record, while api_filter returns the two matching objects. *)
Theorem csv_and_json_differ_in_production :
  let f := Build_Filter (Some "CA") None None None in
  csv_body (app false example_store (post "/download_csv" (filter_form f) None)) =
    Some EmptyString /\
  parse_csv EmptyString = Some [] /\
  json_items (app false example_store (post "/api/filter" [] (Some (filter_json f)))) =
    Some (map record_json (select f example_store)) /\
  length (map record_json (select f example_store)) = 2%nat.
Proof. cbv zeta. split; [|split; [|split]]; vm_compute; reflexivity. Qed.




(** C9.  On the table the loader builds from any data frame, the list that
    explore computes for a column is sorted, has no repetition and holds
    exactly the non-empty values of the column; explore hands these four
    lists to its template on GET and on POST; for the three records of the
    scenario the state list is CA, TX. *)
Theorem dropdowns_are_sorted_distinct_values (df : list RawRow) :
  let store := load_csv_to_db df in
  (forall c, is_dropdown_of c store (dropdown c store)) /\
  (forall test_mode method form,
      exists ctx,
        explore_context (explore test_mode store method form) = Some ctx /\
        ctx_states ctx = dropdown col_state store /\
        ctx_genders ctx = dropdown col_gender store /\
        ctx_emp_status ctx = dropdown col_employment_status store /\
        ctx_years ctx = dropdown col_year store) /\
  dropdown col_state example_store = ["CA"; "TX"].
Proof.
  intros store. split; [|split].
  - intros c. apply dropdown_of_stripped. intros r Hr.
    by apply (load_csv_to_db_stripped df).
  - intros test_mode [|] form.
    + eexists. split; [reflexivity|]. by repeat split.
    + destruct (explore_post_context test_mode store form) as [filters ->].
      eexists. split; [reflexivity|]. by repeat split.
  - vm_compute. reflexivity.
Qed.

(** C10.  A field that is present but empty constrains nothing, exactly as
    an absent one.  Adding the empty string for a field a form does not
    mention changes none of the answers of explore (POST), download_csv and
    download_excel; adding any value that fails the truth test (the empty
    string, null, false, 0, an empty array or object) for a field a JSON
    object does not mention changes nothing in the answer of api_filter.
    Hence a constraint is only ever applied with a non-empty value, and a
    record whose field is the empty string is never among the rows selected
    under a constraint on that field. *)
Theorem empty_value_is_no_constraint (store : Store) :
  (forall (test_mode : bool) (form : Form) (c : Column),
      dict_get (column_key c) form = None ->
      let form' := (column_key c, EmptyString) :: form in
      ctx_results <$> explore_context (explore test_mode store POST form') =
        ctx_results <$> explore_context (explore test_mode store POST form) /\
      download_csv test_mode store form' = download_csv test_mode store form /\
      download_excel test_mode store form' = download_excel test_mode store form) /\
  (forall (members : list (string * pyval)) (c : Column) (v : pyval),
      dict_get (column_key c) members = None ->
      py_truthy v = false ->
      api_filter store (Some (PyDict ((column_key c, v) :: members))) =
      api_filter store (Some (PyDict members))) /\
  (forall (form : Form) (c : Column) (rs : list PLFSRecord.t) (r : PLFSRecord.t),
      py_truthy (form_get form (column_key c)) = true ->
      snd <$> explore_results store form = Ok rs \/ download_results store form = Ok rs ->
      r ∈ rs ->
      column_value c r <> EmptyString) /\
  (forall (members : list (string * pyval)) (c : Column)
          (rs : list PLFSRecord.t) (r : PLFSRecord.t),
      py_truthy (json_field members c) = true ->
      api_filter_results store (Some (PyDict members)) = Ok rs ->
      r ∈ rs ->
      column_value c r <> EmptyString).
Proof.
  split; [|split; [|split]].
  - intros test_mode form c H form'. subst form'.
    destruct (explore_post_context test_mode store ((column_key c, "") :: form))
      as [filters' ->].
    destruct (explore_post_context test_mode store form) as [filters ->].
    rewrite !download_csv_body, !download_excel_workbook.
    by rewrite (select_form_empty_value store form c H).
  - intros members c v H Hv. unfold api_filter.
    by rewrite (api_filter_falsy_value store members c v H Hv).
  - intros form c rs r Hv Hrs Hr. apply (form_selected_nonempty store form c r Hv).
    destruct Hrs as [Hrs | Hrs].
    + destruct (explore_results_select store form) as [filters Hf].
      rewrite Hf in Hrs. by injection Hrs as <-.
    + rewrite download_results_select in Hrs. by injection Hrs as <-.
  - intros members c rs r Hv Hrs Hr.
    by apply (api_filter_selected_nonempty store members rs c r).
Qed.

Lemma empty_value_is_no_constraint_witness :
  download_csv false example_store [("state", EmptyString); ("year", "2021")] =
    download_csv false example_store [("year", "2021")] /\
  api_filter example_store (Some (PyDict [("state", PyInt 0); ("year", PyStr "2021")])) =
    api_filter example_store (Some (PyDict [("year", PyStr "2021")])).
Proof.
  split.
  - refine (proj1 (proj2 (proj1 (empty_value_is_no_constraint example_store)
                            false [("year", "2021")] col_state _))).
    reflexivity.
  - refine (proj1 (proj2 (empty_value_is_no_constraint example_store))
              [("year", PyStr "2021")] col_state (PyInt 0) _ _); reflexivity.
Defined.

(** * Further properties of the code *)

(** ** Stripping *)

Lemma string_app_eq_nil (s t : string) : s +:+ t = EmptyString -> s = EmptyString /\ t = EmptyString.
Proof.
  destruct s; [intros H; split; [reflexivity | exact H]|].
  rewrite string_app_cons. discriminate.
Qed.

Lemma lstrip_split s :
  exists l, s = l +:+ lstrip s /\ string_forall py_isspace l = true.
Proof.
  induction s as [|c s (l & Hl & Hsp)]; [by exists EmptyString|]. cbn [lstrip].
  destruct (py_isspace c) eqn:Hc.
  - exists (String c l). rewrite string_app_cons, <- Hl. split; [done|].
    cbn [string_forall]. by rewrite Hc, Hsp.
  - by exists EmptyString.
Qed.

Lemma rstrip_split s :
  exists r, s = rstrip s +:+ r /\ string_forall py_isspace r = true.
Proof.
  induction s as [|c s (r & Hr & Hsp)]; [by exists EmptyString|]. cbn [rstrip].
  destruct (rstrip s) as [|d t] eqn:Hs.
  - rewrite string_app_nil_l in Hr. subst r.
    destruct (py_isspace c) eqn:Hc.
    + exists (String c s). split; [done|]. cbn [string_forall]. by rewrite Hc, Hsp.
    + exists s. by rewrite string_app_cons, string_app_nil_l.
  - exists r. split; [|done]. rewrite string_app_cons. by f_equal.
Qed.

Lemma rstrip_last s : forall t c,
  rstrip s = t +:+ String c EmptyString -> py_isspace c = false.
Proof.
  induction s as [|a s IH]; intros t c.
  - cbn [rstrip]. intros H. symmetry in H. by apply string_app_eq_nil in H as [_ ?].
  - cbn [rstrip]. destruct (rstrip s) as [|d u] eqn:Hs.
    + destruct (py_isspace a) eqn:Ha.
      * intros H. symmetry in H. by apply string_app_eq_nil in H as [_ ?].
      * destruct t as [|b t]; rewrite ?string_app_nil_l, ?string_app_cons.
        -- by intros [= <-].
        -- intros [= _ H]. symmetry in H. by apply string_app_eq_nil in H as [_ ?].
    + destruct t as [|b t]; rewrite ?string_app_nil_l, ?string_app_cons.
      * discriminate.
      * intros [= _ H]. by apply (IH t c).
Qed.

Lemma strip_no_outer_space s : no_outer_space (strip s).
Proof.
  unfold strip. split.
  - intros c t H. destruct (lstrip_head s) as [He | (d & u & He & Hd)]; rewrite He in H.
    + discriminate.
    + destruct (rstrip_head d u Hd) as [u' Hu]. rewrite Hu in H. by injection H as <- _.
  - intros t c. apply rstrip_last.
Qed.

(** X1.  [strip] removes whitespace from the two ends and nothing else:
    the text is a run of whitespace, the stripped text, and a run of
    whitespace, and the stripped text neither begins nor ends with a
    whitespace character.  Stripping twice changes nothing more. *)
Theorem strip_removes_only_outer_whitespace (s : string) :
  (exists l r,
      s = l +:+ strip s +:+ r /\
      string_forall py_isspace l = true /\
      string_forall py_isspace r = true) /\
  no_outer_space (strip s) /\
  strip (strip s) = strip s.
Proof.
  split; [|split; [apply strip_no_outer_space | apply strip_idemp]].
  destruct (lstrip_split s) as (l & Hl & Hlsp).
  destruct (rstrip_split (lstrip s)) as (r & Hr & Hrsp).
  exists l, r. unfold strip. by rewrite <- Hr, <- Hl.
Qed.

(** ** The loader *)






(** ** Queries, in general *)

Lemma filter_sublist {A} (p : A -> bool) (l : list A) : List.filter p l `sublist_of` l.
Proof.
  induction l as [|x l IH]; [constructor|]. cbn [List.filter].
  destruct (p x); by constructor.
Qed.

Lemma filter_filter_same {A} (p : A -> bool) (l : list A) :
  List.filter p (List.filter p l) = List.filter p l.
Proof.
  induction l as [|x l IH]; [reflexivity|]. cbn [List.filter].
  destruct (p x) eqn:Hx; [|exact IH]. cbn [List.filter]. by rewrite Hx, IH.
Qed.

Lemma api_filter_results_ok_dict store body rs :
  api_filter_results store body = Ok rs -> exists members, body = Some (PyDict members).
Proof.
  destruct body as [v|]; [|discriminate]. destruct v; try discriminate. eauto.
Qed.

(** X3.  No route invents, repeats or reorders records: the rows that
    api_filter selects for any body, and the rows that explore and the two
    download routes keep after suppression for any form and mode, are a
    sublist of the table. *)
Theorem routes_return_sublists_of_the_table (test_mode : bool) (store : Store) :
  (forall body rs,
      api_filter_results store body = Ok rs -> rs `sublist_of` store) /\
  (forall form rs,
      download_results store form = Ok rs ->
      privacy_suppression test_mode rs `sublist_of` store) /\
  (forall form filters rs,
      explore_results store form = Ok (filters, rs) ->
      privacy_suppression test_mode rs `sublist_of` store).
Proof.
  assert (forall rs, rs `sublist_of` store ->
                     privacy_suppression test_mode rs `sublist_of` store) as Hsup.
  { intros rs Hrs. unfold privacy_suppression.
    destruct (negb test_mode && (Z.of_nat (length rs) <? 5)); [apply sublist_nil_l | done]. }
  split; [|split].
  - intros body rs H. destruct (api_filter_results_ok_dict _ _ _ H) as [members ->].
    rewrite api_filter_results_dict, query_all_params in H.
    destruct (mapM bind_criterion _); [|discriminate]. injection H as <-.
    apply filter_sublist.
  - intros form rs H. apply Hsup. rewrite download_results_select in H.
    injection H as <-. apply filter_sublist.
  - intros form filters rs H. apply Hsup.
    destruct (explore_results_select store form) as [filters' H'].
    rewrite H' in H. injection H as _ <-. apply filter_sublist.
Qed.

Lemma routes_return_sublists_of_the_table_witness :
  [ PLFSRecord.mk 3 "CA" "M" 40 "2020" "Employed" 60000 ] `sublist_of` example_store.
Proof.
  exact (proj1 (routes_return_sublists_of_the_table false example_store)
           (Some (PyDict [("year", PyInt 2020)])) _ eq_refl).
Defined.

(** X4.  Chaining narrows: when a query answers with some rows, the query
    with one more criterion answers with those of the rows that pass the
    new criterion when its value can be bound, and raises the binding error
    otherwise; running a query on its own answer gives the answer again;
    and the order in which two groups of criteria were added does not
    change the rows. *)
Theorem query_chaining_narrows (q : Query) (store : Store) (rs : list PLFSRecord.t) :
  query_all q store = Ok rs ->
  (forall c v p,
      bind_param v = Ok p ->
      query_all (query_filter q (ColumnEq c v)) store =
      Ok (List.filter (fun r => sqlite_text_eq (column_value c r) p) rs)) /\
  (forall c v e,
      bind_param v = Raise e ->
      query_all (query_filter q (ColumnEq c v)) store = Raise e) /\
  query_all q rs = Ok rs /\
  (forall q1 q2, q = q1 ++ q2 -> query_all (q2 ++ q1) store = Ok rs).
Proof.
  rewrite query_all_params. destruct (mapM bind_criterion q) as [params|] eqn:Hq;
    [|discriminate].
  intros [= <-]. split; [|split; [|split]].
  - intros c v p Hp. unfold query_filter. rewrite query_all_params, bind_criteria_app, Hq.
    cbn [mapM bind_criterion mbind mret Result_bind Result_ret]. rewrite Hp.
    cbn [mbind Result_bind]. f_equal.
    induction store as [|r store IH]; [reflexivity|].
    cbn [List.filter]. rewrite row_matches_app.
    destruct (row_matches params r); cbn [andb List.filter row_matches forallb fst snd].
    + rewrite andb_true_r. destruct (sqlite_text_eq (column_value c r) p); by rewrite IH.
    + exact IH.
  - intros c v e He. unfold query_filter. rewrite query_all_params, bind_criteria_app, Hq.
    cbn [mapM bind_criterion mbind mret Result_bind Result_ret]. by rewrite He.
  - rewrite query_all_params, Hq. by rewrite filter_filter_same.
  - intros q1 q2 ->. rewrite bind_criteria_app in Hq.
    destruct (mapM bind_criterion q1) as [p1|] eqn:H1; [|discriminate].
    destruct (mapM bind_criterion q2) as [p2|] eqn:H2; [|discriminate].
    injection Hq as <-. rewrite query_all_params, bind_criteria_app, H1, H2.
    cbn [mbind Result_bind]. f_equal. apply List.filter_ext. intros r.
    rewrite !row_matches_app. apply andb_comm.
Qed.

Lemma query_chaining_narrows_witness :
  query_all (query_filter [ColumnEq col_state (PyStr "CA")] (ColumnEq col_year (PyInt 2020)))
            example_store =
  Ok (List.filter (fun r => sqlite_text_eq (column_value col_year r) (SqlInteger 2020))
        (List.filter (fun r => String.eqb (PLFSRecord.state r) "CA") example_store)).
Proof.
  exact (proj1 (query_chaining_narrows [ColumnEq col_state (PyStr "CA")] example_store _
                  eq_refl) col_year (PyInt 2020) (SqlInteger 2020) eq_refl).
Defined.

(** ** When api_filter answers *)

Lemma bind_criteria_app_ok q1 q2 :
  (exists ps, mapM bind_criterion (q1 ++ q2) = Ok ps) <->
  (exists ps, mapM bind_criterion q1 = Ok ps) /\ (exists ps, mapM bind_criterion q2 = Ok ps).
Proof.
  rewrite bind_criteria_app.
  destruct (mapM bind_criterion q1) as [p1|e1], (mapM bind_criterion q2) as [p2|e2];
    cbn [mbind Result_bind].
  - split; eauto.
  - split; [intros [ps [=]] | intros [_ [ps [=]]]].
  - split; [intros [ps [=]] | intros [[ps [=]] _]].
  - split; [intros [ps [=]] | intros [[ps [=]] _]].
Qed.

Lemma bind_criteria_usable c v :
  (exists ps, mapM bind_criterion (criteria c v) = Ok ps) <-> usable v.
Proof.
  unfold usable, criteria. destruct (py_truthy v).
  - cbn [mapM bind_criterion]. destruct (bind_param v) as [p|e]; cbn [mbind mret Result_bind Result_ret].
    + split; eauto.
    + split; [intros [ps [=]] | intros H; by destruct (H eq_refl) as [p [=]]].
  - split; [intros _ [=] | eauto].
Qed.

Lemma usable_cases v :
  usable v <->
  match v with
  | PyInt n => n = 0 \/ - 2 ^ 63 <= n < 2 ^ 63
  | PyList (_ :: _) | PyDict (_ :: _) => False
  | _ => True
  end.
Proof.
  unfold usable. destruct v as [|b|n|s|items|members]; cbn [py_truthy bind_param].
  - split; [done | intros _ [=]].
  - split; eauto.
  - destruct (Z.eqb_spec n 0) as [->|Hn]; cbn [negb].
    + split; [by left | intros _ [=]].
    + destruct ((- 2 ^ 63 <=? n) && (n <? 2 ^ 63)) eqn:Hr.
      * split; [|eauto]. intros _. right.
        apply andb_true_iff in Hr as [?%Z.leb_le ?%Z.ltb_lt]. lia.
      * split; [intros Hu; by destruct (Hu eq_refl) as [x [=]]|].
        intros [?|Hrange]; [done|]. exfalso.
        apply andb_false_iff in Hr as [Hr%Z.leb_gt | Hr%Z.ltb_ge]; lia.
  - split; eauto.
  - destruct items; [split; [done | intros _ [=]]|].
    split; [intros H; by destruct (H eq_refl) as [x [=]] | done].
  - destruct members; [split; [done | intros _ [=]]|].
    split; [intros H; by destruct (H eq_refl) as [x [=]] | done].
Qed.

(** X5.  On a JSON object api_filter answers with rows exactly when each
    of the four field values is skipped by the truth test or can be bound:
    it fails, whatever the table holds (an empty table included), exactly
    when some field is a non-empty array, a non-empty object or a non-zero
    integer outside the 64-bit range.  Strings, booleans, null and the
    other integers never make it fail. *)
Theorem api_filter_answers_iff (store : Store) (members : list (string * pyval)) :
  ((exists rs, api_filter_results store (Some (PyDict members)) = Ok rs) <->
   forall c, usable (json_field members c)) /\
  (forall v,
      usable v <->
      match v with
      | PyInt n => n = 0 \/ - 2 ^ 63 <= n < 2 ^ 63
      | PyList (_ :: _) | PyDict (_ :: _) => False
      | _ => True
      end).
Proof.
  split; [|apply usable_cases].
  rewrite api_filter_results_dict, !filter_if_criteria, query_all_params.
  unfold PLFSRecord_query. cbn [List.app].
  transitivity (exists ps,
    mapM bind_criterion
      (((criteria col_state (json_field members col_state)
         ++ criteria col_gender (json_field members col_gender))
        ++ criteria col_employment_status (json_field members col_employment_status))
       ++ criteria col_year (json_field members col_year)) = Ok ps).
  { destruct (mapM bind_criterion _) as [ps|e]; split; eauto; intros [x [=]]. }
  rewrite !bind_criteria_app_ok, !bind_criteria_usable. split.
  - intros [[[? ?] ?] ?] c. by destruct c.
  - intros H. repeat split; apply H.
Qed.

(** ** Fields a route does not read *)

Lemma json_field_other members k v c :
  column_key c <> k -> json_field ((k, v) :: members) c = json_field members c.
Proof.
  intros Hk. unfold json_field. cbn [dict_get].
  apply not_eq_sym, String.eqb_neq in Hk. by rewrite Hk.
Qed.

Lemma form_filter_other form k v :
  (forall c, column_key c <> k) -> form_filter ((k, v) :: form) = form_filter form.
Proof.
  intros Hk. unfold form_filter. cbn [dict_get].
  pose proof (Hk col_state) as H1. pose proof (Hk col_gender) as H2.
  pose proof (Hk col_employment_status) as H3. pose proof (Hk col_year) as H4.
  apply not_eq_sym, String.eqb_neq in H1, H2, H3, H4. cbn [column_key] in *.
  by rewrite H1, H2, H3, H4.
Qed.

(** X6.  A key that is not one of state, gender, employment_status and
    year is never read: adding such a member to a JSON object leaves the
    answer of api_filter unchanged, and adding such a field to a form
    leaves the answers of download_csv and download_excel and the rows of
    explore unchanged. *)
Theorem other_keys_are_ignored (test_mode : bool) (store : Store) (k : string) :
  (forall c, column_key c <> k) ->
  (forall members v,
      api_filter store (Some (PyDict ((k, v) :: members))) =
      api_filter store (Some (PyDict members))) /\
  (forall form v,
      download_csv test_mode store ((k, v) :: form) = download_csv test_mode store form /\
      download_excel test_mode store ((k, v) :: form) = download_excel test_mode store form /\
      ctx_results <$> explore_context (explore test_mode store POST ((k, v) :: form)) =
        ctx_results <$> explore_context (explore test_mode store POST form)).
Proof.
  intros Hk. split.
  - intros members v. unfold api_filter.
    rewrite !api_filter_results_dict, !json_field_other by apply Hk. reflexivity.
  - intros form v. rewrite !download_csv_body, !download_excel_workbook.
    destruct (explore_post_context test_mode store ((k, v) :: form)) as [f1 ->].
    destruct (explore_post_context test_mode store form) as [f2 ->].
    by rewrite (form_filter_other form k v Hk).
Qed.

Lemma other_keys_are_ignored_witness :
  api_filter example_store (Some (PyDict [("limit", PyInt 1); ("state", PyStr "CA")])) =
  api_filter example_store (Some (PyDict [("state", PyStr "CA")])).
Proof.
  refine (proj1 (other_keys_are_ignored false example_store "limit" _) _ _).
  intros c. by destruct c.
Defined.

(** ** What explore hands to its template *)

(** X7.  The template always receives a chart type that is a non-empty
    string: the submitted one when a non-empty one was submitted with a
    POST, and bar otherwise.  On GET nothing is queried: the form and the
    mode are ignored, the filters hold the chart type only and there are no
    result rows.  On POST the filters repeat the four submitted values,
    with None for a field that was not submitted. *)
Theorem explore_template_arguments (test_mode : bool) (store : Store) (form : Form) :
  (exists ctx,
      explore_context (explore test_mode store GET form) = Some ctx /\
      ctx_filters ctx = [("chart_type", PyStr "bar")] /\
      ctx_results ctx = []) /\
  (exists ctx,
      explore_context (explore test_mode store POST form) = Some ctx /\
      dict_get "chart_type" (ctx_filters ctx) =
        Some (PyStr match dict_get "chart_type" form with
                    | Some s => if String.eqb s "" then "bar" else s
                    | None => "bar"
                    end) /\
      forall c, dict_get (column_key c) (ctx_filters ctx) =
                Some (from_option PyStr PyNone (dict_get (column_key c) form))) /\
  (forall method ctx,
      explore_context (explore test_mode store method form) = Some ctx ->
      exists s, dict_get "chart_type" (ctx_filters ctx) = Some (PyStr s) /\ s <> "").
Proof.
  assert (exists ctx,
      explore_context (explore test_mode store POST form) = Some ctx /\
      dict_get "chart_type" (ctx_filters ctx) =
        Some (PyStr match dict_get "chart_type" form with
                    | Some s => if String.eqb s "" then "bar" else s
                    | None => "bar"
                    end) /\
      forall c, dict_get (column_key c) (ctx_filters ctx) =
                Some (from_option PyStr PyNone (dict_get (column_key c) form))) as Hpost.
  { unfold explore, explore_results.
    pose proof (download_results_select store form) as H.
    unfold download_results in H. rewrite H. cbn [mbind Result_bind].
    eexists. split; [reflexivity|]. cbn [ctx_filters]. split.
    - unfold form_get, py_or. cbn [dict_get String.eqb Ascii.eqb Bool.eqb].
      destruct (dict_get "chart_type" form) as [s|]; cbn [from_option py_truthy];
        [|reflexivity].
      by destruct (String.eqb s "").
    - intros c. by destruct c. }
  split; [|split; [exact Hpost|]].
  - eexists. split; [reflexivity|]. by split.
  - intros [|] ctx.
    + intros [= <-]. exists "bar". by split.
    + destruct Hpost as (ctx' & -> & Hchart & _). intros [= <-].
      eexists. split; [exact Hchart|].
      destruct (dict_get "chart_type" form) as [s|]; [|done].
      destruct (String.eqb_spec s ""); done.
Qed.

Lemma explore_template_arguments_witness :
  exists s,
    dict_get "chart_type"
      [("state", PyNone); ("gender", PyNone); ("employment_status", PyNone);
       ("year", PyNone); ("chart_type", PyStr "bar")] = Some (PyStr s) /\ s <> "".
Proof.
  exact (proj2 (proj2 (explore_template_arguments true [] [("chart_type", "")]))
           POST _ eq_refl).
Defined.

(** ** Production mode *)

Lemma privacy_suppression_production_length rs :
  privacy_suppression false rs = [] \/
  (privacy_suppression false rs = rs /\ (5 <= length rs)%nat).
Proof. rewrite privacy_suppression_production. case_decide; auto. Qed.

(** X8.  In production mode the three form routes never show a set of 1 to
    4 records: explore hands its template no row or at least 5, the CSV of
    download_csv reads back as no record or as the header and at least 5
    records, and a sheet that download_excel writes has no row or the
    header row and at least 5 rows. *)
Theorem production_never_shows_small_sets (store : Store) (form : Form) :
  (exists ctx,
      explore_context (app false store (post "/explore" form None)) = Some ctx /\
      (ctx_results ctx = [] \/ (5 <= length (ctx_results ctx))%nat)) /\
  (exists body records,
      csv_body (app false store (post "/download_csv" form None)) = Some body /\
      CsvReader.reader body = Some records /\
      (records = [] \/ (6 <= length records)%nat)) /\
  (forall rows,
      excel_rows (app false store (post "/download_excel" form None)) = Some rows ->
      rows = [] \/ (6 <= length rows)%nat).
Proof.
  rewrite app_explore_post, app_download_csv, app_download_excel.
  destruct (explore_post_context false store form) as [filters ->].
  rewrite download_csv_body, download_excel_workbook.
  destruct (privacy_suppression_production_length (select (form_filter form) store))
    as [-> | [-> Hlen]].
  - split; [|split].
    + eexists. split; [reflexivity|]. by left.
    + exists EmptyString, []. split; [reflexivity|]. split; [reflexivity | by left].
    + intros rows Hrows. apply excel_output_row_count in Hrows.
      left. by destruct rows.
  - destruct (select (form_filter form) store) as [|r rs] eqn:Hsel; [cbn in Hlen; lia|].
    split; [|split].
    + eexists. split; [reflexivity|]. right. cbn [ctx_results]. by rewrite length_map.
    + eexists _, _. split; [reflexivity|]. split.
      * apply reader_csv_lines. constructor; [done|].
        apply Forall_map, Forall_forall. by intros r' _.
      * right. cbn [length]. rewrite length_map. cbn [length] in *. lia.
    + intros rows Hrows. apply excel_output_row_count in Hrows.
      right. cbn [length] in *. lia.
Qed.

Lemma production_never_shows_small_sets_witness :
  exists rows,
    excel_rows (app false (example_store ++ example_store) (post "/download_excel" [] None)) =
      Some rows /\
    (rows = [] \/ (6 <= length rows)%nat).
Proof.
  eexists. split; [vm_compute; reflexivity|].
  exact (proj2 (proj2 (production_never_shows_small_sets
                         (example_store ++ example_store) [])) _ eq_refl).
Defined.

(** ** The spreadsheet *)







(** ** Routing *)

(** X10.  The routes registered for POST only (download_csv,
    download_excel, api_filter) answer a GET with 405, and the routes
    registered for GET only (index, about, api_data) answer a POST with
    405, whatever the table, the form and the body: their views do not
    run. *)
Theorem routing_rejections (test_mode : bool) (store : Store) (req : Request) :
  (req_method req = GET ->
   req_path req ∈ ["/download_csv"; "/download_excel"; "/api/filter"] ->
   app test_mode store req = Raise MethodNotAllowed /\
   status_code (app test_mode store req) = 405) /\
  (req_method req = POST ->
   req_path req ∈ ["/"; "/about"; "/api/data"] ->
   app test_mode store req = Raise MethodNotAllowed /\
   status_code (app test_mode store req) = 405).
Proof.
  split.
  - intros Hm Hp. rewrite !elem_of_cons, elem_of_nil in Hp.
    unfold app, only. rewrite Hm.
    destruct Hp as [-> | [-> | [-> | []]]]; by split.
  - intros Hm Hp. rewrite !elem_of_cons, elem_of_nil in Hp.
    unfold app, only. rewrite Hm.
    destruct Hp as [-> | [-> | [-> | []]]]; by split.
Qed.

Lemma routing_rejections_witness :
  app true example_store (get "/download_csv") = Raise MethodNotAllowed /\
  app true example_store (post "/api/data" [] None) = Raise MethodNotAllowed.
Proof.
  split.
  - refine (proj1 (proj1 (routing_rejections true example_store (get "/download_csv"))
                     eq_refl _)).
    set_solver.
  - refine (proj1 (proj2 (routing_rejections true example_store
                            (post "/api/data" [] None)) eq_refl _)).
    set_solver.
Defined.

(** ** Dropdown lists and the filters they feed *)

(** X11.  On any table, loaded or not, a dropdown list is sorted, has no
    repetition, and holds exactly the stripped texts of the non-empty
    values of its column; no option begins or ends with whitespace. *)
Theorem dropdown_of_any_table (c : Column) (store : Store) :
  Sorted String.le (dropdown c store) /\
  NoDup (dropdown c store) /\
  (forall v,
      v ∈ dropdown c store <->
      exists r, r ∈ store /\ column_value c r <> EmptyString /\
                strip (column_value c r) = v) /\
  (forall v, v ∈ dropdown c store -> no_outer_space v).
Proof.
  split; [apply dropdown_sorted|]. split; [apply dropdown_NoDup|].
  split; [apply elem_of_dropdown|].
  intros v (r & _ & _ & <-)%elem_of_dropdown. apply strip_no_outer_space.
Qed.

Lemma select_single_field store c v r :
  v <> EmptyString ->
  r ∈ select (form_filter [(column_key c, v)]) store <->
  r ∈ store /\ column_value c r = v.
Proof.
  intros Hv. rewrite elem_of_select. unfold satisfies. split.
  - intros [Hr H]. split; [done|]. apply H; [|done]. by destruct c.
  - intros [Hr H]. split; [done|]. intros c' V HV _.
    destruct c, c'; cbn in HV; by simplify_eq.
Qed.

(** X12.  On a loaded table the options of a dropdown are exactly the
    non-empty values that select something: choosing an option of the list
    of a column as the only filter always selects at least one record, in
    the form routes and in api_filter, and a non-empty value that is not an
    option selects none. *)
Theorem dropdown_options_select_records (df : list RawRow) (c : Column) (v : string) :
  let store := load_csv_to_db df in
  (v ∈ dropdown c store ->
   exists r rs,
     download_results store [(column_key c, v)] = Ok (r :: rs) /\
     api_filter_results store (Some (PyDict [(column_key c, PyStr v)])) = Ok (r :: rs)) /\
  (v <> EmptyString -> v ∉ dropdown c store ->
   download_results store [(column_key c, v)] = Ok [] /\
   api_filter_results store (Some (PyDict [(column_key c, PyStr v)])) = Ok []).
Proof.
  intros store.
  assert (api_filter_results store (Some (PyDict [(column_key c, PyStr v)])) =
          download_results store [(column_key c, v)]) as ->.
  { rewrite download_results_select.
    rewrite <- (api_filter_results_select store (form_filter [(column_key c, v)])).
    by destruct c. }
  rewrite download_results_select.
  pose proof (dropdown_of_stripped c store
                (fun r Hr => load_csv_to_db_stripped df r c Hr)) as (_ & _ & Hin).
  split.
  - intros (Hv & r & Hr & Hcol)%Hin.
    assert (r ∈ select (form_filter [(column_key c, v)]) store) as Hsel
      by by apply select_single_field.
    destruct (select (form_filter [(column_key c, v)]) store) as [|r' rs].
    + by apply elem_of_nil in Hsel.
    + by exists r', rs.
  - intros Hv Hnot.
    destruct (select (form_filter [(column_key c, v)]) store) as [|r rs] eqn:Hsel; [done|].
    exfalso. apply Hnot, Hin. split; [done|]. exists r.
    apply (select_single_field store c v r Hv). rewrite Hsel. by left.
Qed.

Lemma dropdown_options_select_records_witness :
  exists r rs,
    download_results example_store [("state", "TX")] = Ok (r :: rs) /\
    api_filter_results example_store (Some (PyDict [("state", PyStr "TX")])) = Ok (r :: rs).
Proof.
  refine (proj1 (dropdown_options_select_records example_frame col_state "TX") _).
  vm_compute. set_solver.
Defined.

(** ** The CSV export, read back *)

(** X13.  The CSV export loses nothing: for every list of records the text
    download_csv writes parses back to the record objects of the list, so
    two lists with the same export have the same values in every field. *)
Theorem csv_export_is_lossless (rs1 rs2 : list PLFSRecord.t) :
  (exists body,
      csv_output rs1 = Ok body /\ parse_csv body = Some (map record_json rs1)) /\
  (csv_output rs1 = csv_output rs2 -> map record_json rs1 = map record_json rs2).
Proof.
  destruct (parse_csv_output rs1) as (b1 & H1 & P1).
  destruct (parse_csv_output rs2) as (b2 & H2 & P2).
  split; [by exists b1|].
  rewrite H1, H2. intros [= ->]. rewrite P1 in P2. by injection P2.
Qed.

Lemma csv_export_is_lossless_witness :
  map record_json [PLFSRecord.mk 1 "CA" "F" 30 "2021" "Employed" 50000] =
  map record_json [PLFSRecord.mk 7 "CA" "F" 30 "2021" "Employed" 50000].
Proof.
  exact (proj2 (csv_export_is_lossless
                  [PLFSRecord.mk 1 "CA" "F" 30 "2021" "Employed" 50000]
                  [PLFSRecord.mk 7 "CA" "F" 30 "2021" "Employed" 50000]) eq_refl).
Defined.

(** X14.  The CSV and the JSON exports agree whenever the suppressor
    leaves the selected rows alone (test mode, 5 rows or more, or no row):
    for the same filter, parsing the CSV of download_csv back, with age and
    wage read as integers, gives exactly the objects of api_filter, in the
    same order. *)
Theorem csv_and_json_agree_when_unsuppressed
    (test_mode : bool) (store : Store) (f : Filter) :
  test_mode = true \/ (5 <= length (select f store))%nat \/ select f store = [] ->
  exists body items,
    csv_body (app test_mode store (post "/download_csv" (filter_form f) None)) = Some body /\
    json_items (app test_mode store (post "/api/filter" [] (Some (filter_json f)))) =
      Some items /\
    parse_csv body = Some items /\
    items = map record_json (select f store).
Proof.
  intros Hmode.
  destruct (csv_json_round_trip test_mode store f Hmode) as (body & items & Hb & Hi & Hp).
  exists body, items. split; [done|]. split; [done|]. split; [done|].
  rewrite app_api_filter, api_filter_json in Hi. by injection Hi as <-.
Qed.

Lemma csv_and_json_agree_when_unsuppressed_witness :
  exists body items,
    csv_body (app true example_store
                (post "/download_csv" (filter_form (Build_Filter (Some "CA") None None None))
                   None)) = Some body /\
    json_items (app true example_store
                  (post "/api/filter" []
                     (Some (filter_json (Build_Filter (Some "CA") None None None))))) =
      Some items /\
    parse_csv body = Some items /\
    items = map record_json (select (Build_Filter (Some "CA") None None None) example_store).
Proof.
  exact (csv_and_json_agree_when_unsuppressed true example_store
           (Build_Filter (Some "CA") None None None) (or_introl eq_refl)).
Defined.

(** ** Values that are compared as text *)

(** X16.  api_filter compares a number as text: for any of the four
    fields, a non-zero integer of the 64-bit range given as the value
    selects the same records as its decimal text given as a string,
    whatever the other members of the object are. *)
Theorem integer_values_are_compared_as_text
    (store : Store) (members : list (string * pyval)) (c : Column) (n : Z) :
  n <> 0 -> - 2 ^ 63 <= n < 2 ^ 63 ->
  api_filter store (Some (PyDict ((column_key c, PyInt n) :: members))) =
  api_filter store (Some (PyDict ((column_key c, PyStr (str_of_int n)) :: members))).
Proof.
  intros Hn Hrange. unfold api_filter. f_equal.
  rewrite !api_filter_results_dict, !filter_if_criteria. unfold PLFSRecord_query.
  destruct c; unfold json_field;
    cbn [column_key dict_get String.eqb Ascii.eqb Bool.eqb default from_option id].
  - rewrite <- !app_assoc. apply (query_all_same_text [] _ col_state); done.
  - rewrite <- !app_assoc.
    apply (query_all_same_text (criteria col_state _) _ col_gender); done.
  - rewrite <- !app_assoc. rewrite !(app_assoc (criteria col_state _)).
    apply (query_all_same_text (criteria col_state _ ++ criteria col_gender _) _
             col_employment_status); done.
  - change ([] ++ criteria col_state ?v) with (criteria col_state v).
    rewrite <- (app_nil_r (criteria col_year (PyInt n))).
    rewrite <- (app_nil_r (criteria col_year (PyStr (str_of_int n)))).
    apply (query_all_same_text _ [] col_year); done.
Qed.

Lemma integer_values_are_compared_as_text_witness :
  api_filter example_store (Some (PyDict [("year", PyInt 2020)])) =
  api_filter example_store (Some (PyDict [("year", PyStr (str_of_int 2020))])).
Proof.
  refine (integer_values_are_compared_as_text example_store [] col_year 2020 _ _).
  - discriminate.
  - split; [apply Z.leb_le | apply Z.ltb_lt]; reflexivity.
Defined.
